(** * The command / undo core of cola: [cola/cmds.py]

    A shallow embedding of the command classes of [cola/cmds.py] and of the
    part of their collaborators they touch.  Python strings are byte strings
    ([string]); [core.encode] and [core.decode] (UTF-8 conversion) are the
    identity on them.  Exit statuses are [Z].  A command object is a record,
    a method is a function in the monad [M] of programs that mutate the
    process-wide state ([World]) and may raise. *)

From Stdlib Require Import ZArith Ascii.
From stdpp Require Import base strings list gmap sorting pretty.

(** ** Python string operations used by the commands *)

Module Str.

Definition LF : ascii := ascii_of_nat 10.

(** The string literal ['\n']. *)
Definition nl : string := String LF "".

(** A double quote character, as a string. *)
Definition dq : string := String (ascii_of_nat 34) "".

(** [sep.join(parts)] *)
Definition join (sep : string) (parts : list string) : string :=
  String.concat sep parts.

(** [needle in hay] on strings: substring test. *)
Fixpoint contains (needle hay : string) : bool :=
  String.prefix needle hay ||
  match hay with
  | EmptyString => false
  | String _ hay' => contains needle hay'
  end.

(** [s.split(sep)] for a one-character separator. *)
Fixpoint split (sep : ascii) (s : string) : list string :=
  match s with
  | EmptyString => [EmptyString]
  | String c s' =>
      if Ascii.eqb c sep then EmptyString :: split sep s'
      else match split sep s' with
           | [] => [String c EmptyString]
           | l :: ls => String c l :: ls
           end
  end.

(** The lines of a text: [s.split('\n')]. *)
Definition lines (s : string) : list string := split LF s.

(** [os.path.basename(p)]: what follows the last slash. *)
Definition basename (p : string) : string :=
  List.last (split "/"%char p) EmptyString.

Definition is_space (c : ascii) : bool :=
  let n := nat_of_ascii c in
  (n =? 32)%nat || ((9 <=? n)%nat && (n <=? 13)%nat).

(** [s.rstrip()] *)
Fixpoint rstrip (s : string) : string :=
  match s with
  | EmptyString => EmptyString
  | String c s' =>
      match rstrip s' with
      | EmptyString => if is_space c then EmptyString else String c EmptyString
      | r => String c r
      end
  end.

(** [s] occurs inside [t]. *)
Definition occurs_in (s t : string) : Prop :=
  ∃ pre post : string, t = pre +:+ s +:+ post.

End Str.

(** ** The repository state model ([cola.model()]) *)

Inductive Mode : Type :=
| mode_none
| mode_worktree
| mode_index
| mode_amend
| mode_untracked.

Global Instance Mode_eq_dec : EqDecision Mode.
Proof. solve_decision. Defined.

(** The four path lists a status scan recomputes. *)
Record StatusLists : Type := {
  sl_staged : list string;
  sl_modified : list string;
  sl_untracked : list string;
  sl_unmerged : list string;
}.

Module Model.

(** Modelled from the spec: the main model class is not part of
    [cola/cmds.py]; its attributes are the fields of RepositoryState and
    every [set_x(v)] stores [v] in attribute [x] and nothing else. *)
Record t : Type := {
  diff_text : string;
  filename : option string;
  mode : Mode;
  head : string;
  commitmsg : string;
  directory : string;
  staged : list string;
  modified : list string;
  untracked : list string;
  unmerged : list string;
}.

Definition set_diff_text (v : string) (m : t) : t :=
  {| diff_text := v; filename := filename m; mode := mode m; head := head m;
     commitmsg := commitmsg m; directory := directory m;
     staged := staged m; modified := modified m;
     untracked := untracked m; unmerged := unmerged m |}.

Definition set_filename (v : option string) (m : t) : t :=
  {| diff_text := diff_text m; filename := v; mode := mode m; head := head m;
     commitmsg := commitmsg m; directory := directory m;
     staged := staged m; modified := modified m;
     untracked := untracked m; unmerged := unmerged m |}.

Definition set_mode (v : Mode) (m : t) : t :=
  {| diff_text := diff_text m; filename := filename m; mode := v; head := head m;
     commitmsg := commitmsg m; directory := directory m;
     staged := staged m; modified := modified m;
     untracked := untracked m; unmerged := unmerged m |}.

Definition set_head (v : string) (m : t) : t :=
  {| diff_text := diff_text m; filename := filename m; mode := mode m; head := v;
     commitmsg := commitmsg m; directory := directory m;
     staged := staged m; modified := modified m;
     untracked := untracked m; unmerged := unmerged m |}.

Definition set_commitmsg (v : string) (m : t) : t :=
  {| diff_text := diff_text m; filename := filename m; mode := mode m; head := head m;
     commitmsg := v; directory := directory m;
     staged := staged m; modified := modified m;
     untracked := untracked m; unmerged := unmerged m |}.

Definition set_directory (v : string) (m : t) : t :=
  {| diff_text := diff_text m; filename := filename m; mode := mode m; head := head m;
     commitmsg := commitmsg m; directory := v;
     staged := staged m; modified := modified m;
     untracked := untracked m; unmerged := unmerged m |}.

(** Modelled from the spec: a rescan replaces the four path lists wholesale
    and leaves the other attributes alone. *)
Definition set_status (s : StatusLists) (m : t) : t :=
  {| diff_text := diff_text m; filename := filename m; mode := mode m; head := head m;
     commitmsg := commitmsg m; directory := directory m;
     staged := sl_staged s; modified := sl_modified s;
     untracked := sl_untracked s; unmerged := sl_unmerged s |}.

(** The fields an undo has to bring back. *)
Record snapshot : Type := {
  snap_diff_text : string;
  snap_filename : option string;
  snap_mode : Mode;
  snap_head : string;
  snap_commitmsg : string;
  snap_directory : string;
}.

Definition snap (m : t) : snapshot :=
  {| snap_diff_text := diff_text m; snap_filename := filename m;
     snap_mode := mode m; snap_head := head m;
     snap_commitmsg := commitmsg m; snap_directory := directory m |}.

End Model.

(** ** Command objects *)

(** The attributes [Command.__init__] stores; [undoable] comes from
    [BaseCommand.__init__]. *)
Record Command : Type := {
  undoable : bool;
  old_diff_text : string;
  old_filename : option string;
  old_mode : Mode;
  old_head : string;
  new_diff_text : string;
  new_filename : option string;
  new_head : string;
  new_mode : Mode;
}.

Definition with_undoable (v : bool) (c : Command) : Command :=
  {| undoable := v;
     old_diff_text := old_diff_text c; old_filename := old_filename c;
     old_mode := old_mode c; old_head := old_head c;
     new_diff_text := new_diff_text c; new_filename := new_filename c;
     new_head := new_head c; new_mode := new_mode c |}.

Definition with_new_diff_text (v : string) (c : Command) : Command :=
  {| undoable := undoable c;
     old_diff_text := old_diff_text c; old_filename := old_filename c;
     old_mode := old_mode c; old_head := old_head c;
     new_diff_text := v; new_filename := new_filename c;
     new_head := new_head c; new_mode := new_mode c |}.

Definition with_new_head (v : string) (c : Command) : Command :=
  {| undoable := undoable c;
     old_diff_text := old_diff_text c; old_filename := old_filename c;
     old_mode := old_mode c; old_head := old_head c;
     new_diff_text := new_diff_text c; new_filename := new_filename c;
     new_head := v; new_mode := new_mode c |}.

Definition with_new_mode (v : Mode) (c : Command) : Command :=
  {| undoable := undoable c;
     old_diff_text := old_diff_text c; old_filename := old_filename c;
     old_mode := old_mode c; old_head := old_head c;
     new_diff_text := new_diff_text c; new_filename := new_filename c;
     new_head := new_head c; new_mode := v |}.

Record AmendMode : Type := {
  am_base : Command;
  am_skip : bool;
  am_amending : bool;
  am_old_commitmsg : string;
  am_new_commitmsg : string;
}.

Record Commit : Type := {
  ci_base : Command;
  ci_amend : bool;
  ci_msg : string;
  ci_old_commitmsg : string;
  ci_new_commitmsg : string;
}.

Record LoadCommitMessage : Type := {
  lcm_base : Command;
  lcm_path : option string;
  lcm_old_commitmsg : string;
  lcm_old_directory : string;
}.

Record LoadPreviousMessage : Type := {
  lpm_base : Command;
  lpm_sha1 : option string;
  lpm_old_commitmsg : string;
  lpm_new_commitmsg : string;
}.

Record SignOff : Type := {
  so_base : Command;
  so_old_commitmsg : string;
}.

Record PathsCommand : Type := {
  pc_base : Command;
  pc_paths : list string;
}.

Record ApplyPatches : Type := {
  ap_base : Command;
  ap_patches : list string;
}.

Record RunConfigAction : Type := {
  rca_base : Command;
  rca_name : string;
}.

(** A command object together with its class, as [type(cmdobj)] sees it. *)
Inductive CmdObj : Type :=
| ObjAmendMode (c : AmendMode)
| ObjApplyPatches (c : ApplyPatches)
| ObjResetMode (c : Command)
| ObjCommit (c : Commit)
| ObjLoadCommitMessage (c : LoadCommitMessage)
| ObjLoadCommitTemplate (c : LoadCommitMessage)
| ObjLoadPreviousMessage (c : LoadPreviousMessage)
| ObjRunConfigAction (c : RunConfigAction)
| ObjSetDiffText (c : Command)
| ObjShowUntracked (c : Command)
| ObjSignOff (c : SignOff)
| ObjStage (c : PathsCommand)
| ObjUnstage (c : PathsCommand)
| ObjUnstageAll (c : Command)
| ObjUntrack (c : PathsCommand)
| ObjUntrackedSummary (c : Command).

(** ** Values of a tool configuration ([_config.get_guitool_opts]) *)

Inductive OptValue : Type :=
| VNone
| VBool (b : bool)
| VStr (s : string).

(** [opts.get(key)]: [None] for a missing key. *)
Definition opts_get (opts : gmap string OptValue) (key : string) : OptValue :=
  default VNone (opts !! key).

(** Python truthiness. *)
Definition truthy (v : OptValue) : bool :=
  match v with
  | VNone => false
  | VBool b => b
  | VStr s => negb (String.eqb s "")
  end.

(** ['%s' % v] *)
Definition format_value (v : OptValue) : string :=
  match v with
  | VNone => "None"
  | VBool true => "True"
  | VBool false => "False"
  | VStr s => s
  end.

(** [fmt % arg] for a format with one [%s]; a format without placeholder is
    left as it is (the message catalogue keeps the placeholder). *)
Fixpoint format_s (fmt arg : string) : string :=
  match fmt with
  | EmptyString => EmptyString
  | String c rest =>
      match rest with
      | String d rest' =>
          if Ascii.eqb c "%" && Ascii.eqb d "s" then arg +:+ rest'
          else String c (format_s rest arg)
      | EmptyString => fmt
      end
  end.

(** ** Observable effects *)

(** The signals of [cola.signals] used here, with their payload. *)
Inductive Signal : Type :=
| log_cmd (status : Z) (text : string)
| amend (entering : bool)
| information (title msg : string)
| critical (title msg : string)
| question (title msg : string)
| run_config_action (cmd : string) (opts : gmap string OptValue)
| run_command (title : string) (argv : list string).

(** Calls into the model's path operations and rescans. *)
Inductive ModelCall : Type :=
| update_status
| update_file_status
| stage_paths (paths : list string)
| unstage_paths (paths : list string)
| unstage_all
| untrack_paths (paths : list string)
| commit_with_msg (msg tmpfile : string) (amend : bool).

(** Calls of the git collaborator and of the shell. *)
Inductive GitCall : Type :=
| git_am (patch : string)
| git_rev_parse (rev : string)
| git_diff_stat (rev : string).

Inductive Effect : Type :=
| Broadcast (s : Signal)
| PromptUser (s : Signal)
| Call (c : ModelCall)
| Git (c : GitCall)
| Shell (argv : list string).

(** ** Process-wide state *)

Record World : Type := {
  model : Model.t;
  environ : gmap string string;
  undostack : list CmdObj;
  trace : list Effect;
}.

Definition with_model (m : Model.t) (w : World) : World :=
  {| model := m; environ := environ w; undostack := undostack w; trace := trace w |}.

Definition with_environ (e : gmap string string) (w : World) : World :=
  {| model := model w; environ := e; undostack := undostack w; trace := trace w |}.

Definition with_trace (t : list Effect) (w : World) : World :=
  {| model := model w; environ := environ w; undostack := undostack w; trace := t |}.

(** What the collaborators outside [cola/cmds.py] answer.  An answer that
    may change over time takes the effects performed so far. *)
Record Ext : Type := {
  (* file system *)
  path_exists : string → bool;
  path_isfile : string → bool;
  slurp : string → option string;
  dirname : string → string;
  tmp_filename : list Effect → string → string;
  (* git and the model *)
  git_path : string → string;
  prev_commitmsg : option string → string;
  run_commit : list Effect → string → string → bool → Z * string;
  run_am : list Effect → string → Z * string;
  run_rev_parse : list Effect → string → string;
  run_diff_stat : list Effect → string → string;
  run_untrack : list Effect → list string → Z * string;
  status_scan : list Effect → StatusLists;
  (* configuration, selection, system *)
  config_get : string → option string;
  get_guitool_opts : string → gmap string OptValue;
  selection_filename : option string;
  pw_name : option string;
  platform_node : string;
  gettext : string → string;
  expandvars : gmap string string → string → string;
  (* the user *)
  answer_question : list Effect → string → string → bool;
  answer_run_config_action :
    list Effect → string → gmap string OptValue → bool * gmap string OptValue;
  answer_run_command : list Effect → string → list string → Z * string * string;
  shell_run : list Effect → list string → Z * string * string;
}.

(** ** Programs: state passing with exceptions *)

Inductive exn : Type :=
| NotImplementedError (msg : string)
| UsageError (title msg : string)
| IndexError
| IOError (path : string)
| TypeError.

Inductive result (A : Type) : Type :=
| Ok (a : A)
| Raise (e : exn).
Arguments Ok {A} a.
Arguments Raise {A} e.

Definition M (A : Type) : Type := World → result A * World.

Global Instance M_ret : MRet M := λ A a w, (Ok a, w).

Global Instance M_bind : MBind M := λ A B k m w,
  match m w with
  | (Ok a, w') => k a w'
  | (Raise e, w') => (Raise e, w')
  end.

Global Instance M_fmap : FMap M := λ A B f m w,
  match m w with
  | (Ok a, w') => (Ok (f a), w')
  | (Raise e, w') => (Raise e, w')
  end.

Definition raise {A : Type} (e : exn) : M A := λ w, (Raise e, w).

(** [try: body except: handler] with a bare [except]. *)
Definition try_except {A : Type} (body : M A) (handler : M A) : M A := λ w,
  match body w with
  | (Ok a, w') => (Ok a, w')
  | (Raise _, w') => handler w'
  end.

Definition get_model : M Model.t := λ w, (Ok (model w), w).
Definition update_model (f : Model.t → Model.t) : M unit :=
  λ w, (Ok tt, with_model (f (model w)) w).
Definition get_environ : M (gmap string string) := λ w, (Ok (environ w), w).
Definition update_environ (f : gmap string string → gmap string string) : M unit :=
  λ w, (Ok tt, with_environ (f (environ w)) w).
Definition get_undostack : M (list CmdObj) := λ w, (Ok (undostack w), w).
Definition history : M (list Effect) := λ w, (Ok (trace w), w).
Definition emit (e : Effect) : M unit :=
  λ w, (Ok tt, with_trace (trace w ++ [e]) w).

(** [_notifier.broadcast(signal, ...)] *)
Definition broadcast (s : Signal) : M unit := emit (Broadcast s).

(** The model's setters as programs. *)
Definition set_diff_text (v : string) : M unit := update_model (Model.set_diff_text v).
Definition set_filename (v : option string) : M unit := update_model (Model.set_filename v).
Definition set_mode (v : Mode) : M unit := update_model (Model.set_mode v).
Definition set_head (v : string) : M unit := update_model (Model.set_head v).
Definition set_commitmsg (v : string) : M unit := update_model (Model.set_commitmsg v).
Definition set_directory (v : string) : M unit := update_model (Model.set_directory v).

(** ** BaseCommand and Command *)

Definition is_undoable (c : Command) : bool := undoable c.

Definition BaseCommand_do {A : Type} (name : string) : M A :=
  raise (NotImplementedError (name +:+ ".do() is unimplemented")).

Definition BaseCommand_undo {A : Type} (name : string) : M A :=
  raise (NotImplementedError (name +:+ ".undo() is unimplemented")).

Definition Command_init : M Command :=
  m ← get_model;
  mret {| undoable := false;
          old_diff_text := Model.diff_text m;
          old_filename := Model.filename m;
          old_mode := Model.mode m;
          old_head := Model.head m;
          new_diff_text := Model.diff_text m;
          new_filename := Model.filename m;
          new_head := Model.head m;
          new_mode := Model.mode m |}.

Definition Command_do (self : Command) : M unit :=
  set_filename (new_filename self);;
  set_head (new_head self);;
  set_mode (new_mode self);;
  set_diff_text (new_diff_text self).

Definition Command_undo (self : Command) : M unit :=
  set_diff_text (old_diff_text self);;
  set_filename (old_filename self);;
  set_head (old_head self);;
  set_mode (old_mode self).

Section Commands.

Context (ext : Ext).

(** *** Collaborators as programs *)

(** [_factory.prompt_user(signals.information, title, msg)] *)
Definition prompt_information (title msg : string) : M unit :=
  emit (PromptUser (information title msg)).

Definition prompt_critical (title msg : string) : M unit :=
  emit (PromptUser (critical title msg)).

Definition prompt_question (title msg : string) : M bool :=
  h ← history;
  emit (PromptUser (question title msg));;
  mret (answer_question ext h title msg).

(** The tool dialog stores what the user typed in [opts]. *)
Definition prompt_run_config_action (cmd : string) (opts : gmap string OptValue)
  : M (bool * gmap string OptValue) :=
  h ← history;
  emit (PromptUser (run_config_action cmd opts));;
  mret (answer_run_config_action ext h cmd opts).

Definition prompt_run_command (title : string) (argv : list string)
  : M (Z * string * string) :=
  h ← history;
  emit (PromptUser (run_command title argv));;
  mret (answer_run_command ext h title argv).

(** [utils.run_command(argv, flag_error=False)] *)
Definition utils_run_command (argv : list string) : M (Z * string * string) :=
  h ← history;
  emit (Shell argv);;
  mret (shell_run ext h argv).

(** [utils.slurp(path)]: raises when the file cannot be read. *)
Definition utils_slurp (path : string) : M string :=
  match slurp ext path with
  | Some content => mret content
  | None => raise (IOError path)
  end.

(** [l[i]] *)
Definition getitem (l : list string) (i : nat) : M string :=
  match l !! i with
  | Some x => mret x
  | None => raise IndexError
  end.

(** Modelled from the spec: the model's rescans and path operations are
    not part of [cola/cmds.py]; each is one call, after which the path
    lists are whatever the status scan then reports. *)
Definition rescan_after (c : ModelCall) : M unit :=
  emit (Call c);;
  h ← history;
  update_model (Model.set_status (status_scan ext h)).

Definition model_update_status : M unit := rescan_after update_status.
Definition model_update_file_status : M unit := rescan_after update_file_status.
Definition model_stage_paths (paths : list string) : M unit :=
  rescan_after (stage_paths paths).
Definition model_unstage_paths (paths : list string) : M unit :=
  rescan_after (unstage_paths paths).
Definition model_unstage_all : M unit := rescan_after unstage_all.

Definition model_untrack_paths (paths : list string) : M (Z * string) :=
  h ← history;
  rescan_after (untrack_paths paths);;
  mret (run_untrack ext h paths).

Definition model_commit_with_msg (msg tmpfile : string) (amend : bool)
  : M (Z * string) :=
  h ← history;
  emit (Call (commit_with_msg msg tmpfile amend));;
  mret (run_commit ext h msg tmpfile amend).

Definition model_git_am (patch : string) : M (Z * string) :=
  h ← history;
  emit (Git (git_am patch));;
  mret (run_am ext h patch).

Definition model_git_rev_parse (rev : string) : M string :=
  h ← history;
  emit (Git (git_rev_parse rev));;
  mret (run_rev_parse ext h rev).

Definition model_git_diff_stat (rev : string) : M string :=
  h ← history;
  emit (Git (git_diff_stat rev));;
  mret (run_diff_stat ext h rev).

(** *** AmendMode *)

(** The loop of [AmendMode.__init__] over [xrange(undo_count)]. *)
Fixpoint AmendMode_search (undostack : list CmdObj) (undo_count : nat)
    (range : list nat) (new_commitmsg : string) : M string :=
  match range with
  | [] => mret new_commitmsg
  | i :: range' =>
      let idx := (undo_count - i - 1)%nat in
      match undostack !! idx with
      | None => raise IndexError
      | Some (ObjAmendMode cmdobj) =>
          if am_amending cmdobj then mret (am_old_commitmsg cmdobj)
          else AmendMode_search undostack undo_count range' new_commitmsg
      | Some _ => AmendMode_search undostack undo_count range' new_commitmsg
      end
  end.

Definition AmendMode_init (amend : bool) : M AmendMode :=
  base ← Command_init;
  m ← get_model;
  let base := with_undoable true base in
  let old_commitmsg := Model.commitmsg m in
  if amend then
    mret {| am_base := with_new_head "HEAD^" (with_new_mode mode_amend base);
            am_skip := false;
            am_amending := amend;
            am_old_commitmsg := old_commitmsg;
            am_new_commitmsg := prev_commitmsg ext None |}
  else
    let base :=
      with_new_diff_text "" (with_new_head "HEAD" (with_new_mode mode_none base)) in
    let new_commitmsg := Model.commitmsg m in
    stack ← get_undostack;
    new_commitmsg ←
      match stack with
      | [] => mret new_commitmsg
      | _ =>
          let undo_count := length stack in
          AmendMode_search stack undo_count (seq 0 undo_count) new_commitmsg
      end;
    mret {| am_base := base;
            am_skip := false;
            am_amending := amend;
            am_old_commitmsg := old_commitmsg;
            am_new_commitmsg := new_commitmsg |}.

Definition with_skip (v : bool) (self : AmendMode) : AmendMode :=
  {| am_base := am_base self; am_skip := v; am_amending := am_amending self;
     am_old_commitmsg := am_old_commitmsg self;
     am_new_commitmsg := am_new_commitmsg self |}.

(** Returns the command object, whose [skip] attribute it assigns. *)
Definition AmendMode_do (self : AmendMode) : M AmendMode :=
  if am_amending self && path_exists ext (git_path ext "MERGE_HEAD") then
    let self := with_skip true self in
    broadcast (amend false);;
    prompt_information "Oops! Unmerged"
      ("You are in the middle of a merge." +:+ Str.nl +:+
       "You cannot amend while merging.");;
    mret self
  else
    let self := with_skip false self in
    broadcast (amend (am_amending self));;
    set_commitmsg (am_new_commitmsg self);;
    Command_do (am_base self);;
    model_update_file_status;;
    mret self.

Definition AmendMode_undo (self : AmendMode) : M unit :=
  if am_skip self then mret tt
  else
    set_commitmsg (am_old_commitmsg self);;
    Command_undo (am_base self);;
    model_update_file_status.

(** *** ResetMode and Commit *)

Definition ResetMode_init : M Command :=
  base ← Command_init;
  mret (with_new_diff_text "" (with_new_head "HEAD" (with_new_mode mode_none base))).

Definition ResetMode_do (self : Command) : M unit :=
  Command_do self;;
  model_update_file_status.

Definition Commit_init (amend : bool) (msg : string) : M Commit :=
  base ← ResetMode_init;
  m ← get_model;
  mret {| ci_base := base;
          ci_amend := amend;
          ci_msg := msg;
          ci_old_commitmsg := Model.commitmsg m;
          ci_new_commitmsg := "" |}.

Definition Commit_do (self : Commit) : M unit :=
  h ← history;
  let tmpfile := tmp_filename ext h "commit-message" in
  '(status, output) ← model_commit_with_msg (ci_msg self) tmpfile (ci_amend self);
  title ←
    (if (status =? 0)%Z then
       ResetMode_do (ci_base self);;
       set_commitmsg (ci_new_commitmsg self);;
       mret "Commit: "
     else mret "Commit failed: ");
  broadcast (log_cmd status (title +:+ output)).

(** *** Commit message loaders *)

Definition LoadCommitMessage_init (path : option string) : M LoadCommitMessage :=
  base ← Command_init;
  m ← get_model;
  mret {| lcm_base := with_undoable true base;
          lcm_path := path;
          lcm_old_commitmsg := Model.commitmsg m;
          lcm_old_directory := Model.directory m |}.

Definition cannot_find_template (path : option string) : exn :=
  UsageError "Error: cannot find commit template"
    (format_value (from_option VStr VNone path) +:+ ": No such file or directory.").

Definition LoadCommitMessage_do (self : LoadCommitMessage) : M unit :=
  match lcm_path self with
  | None => raise (cannot_find_template None)
  | Some path =>
      if String.eqb path "" || negb (path_isfile ext path) then
        raise (cannot_find_template (Some path))
      else
        set_directory (dirname ext path);;
        content ← utils_slurp path;
        set_commitmsg content
  end.

Definition LoadCommitMessage_undo (self : LoadCommitMessage) : M unit :=
  set_commitmsg (lcm_old_commitmsg self);;
  set_directory (lcm_old_directory self).

Definition LoadCommitTemplate_init : M LoadCommitMessage :=
  LoadCommitMessage_init (config_get ext "commit.template").

Definition LoadCommitTemplate_do (self : LoadCommitMessage) : M unit :=
  match lcm_path self with
  | None =>
      raise (UsageError "Error: unconfigured commit template"
               ("A commit template has not been configured." +:+ Str.nl +:+
                "Use " +:+ Str.dq +:+ "git config" +:+ Str.dq +:+ " to define "
                  +:+ Str.dq +:+ "commit.template" +:+ Str.dq +:+ Str.nl +:+
                "so that it points to a commit template."))
  | Some _ => LoadCommitMessage_do self
  end.

Definition LoadPreviousMessage_init (sha1 : string) : M LoadPreviousMessage :=
  base ← Command_init;
  m ← get_model;
  mret {| lpm_base := with_undoable true base;
          lpm_sha1 := Some sha1;
          lpm_old_commitmsg := Model.commitmsg m;
          lpm_new_commitmsg := prev_commitmsg ext (Some sha1) |}.

Definition LoadPreviousMessage_do (self : LoadPreviousMessage) : M unit :=
  set_commitmsg (lpm_new_commitmsg self).

Definition LoadPreviousMessage_undo (self : LoadPreviousMessage) : M unit :=
  set_commitmsg (lpm_old_commitmsg self).

(** *** SetDiffText, ShowUntracked, UntrackedSummary *)

Definition SetDiffText_init (text : string) : M Command :=
  base ← Command_init;
  mret (with_new_diff_text text (with_undoable true base)).

Definition ShowUntracked_init (filenames : list string) : M Command :=
  base ← Command_init;
  let base := with_new_mode mode_untracked base in
  text ← try_except (f ← getitem filenames 0; utils_slurp f) (mret "");
  mret (with_new_diff_text text base).

Definition UntrackedSummary_text (untracked : list string) : string :=
  let suffix := if (1 <? length untracked)%nat then "s" else "" in
  let io := "# " +:+ pretty (length untracked) +:+ " untracked file"
                 +:+ suffix +:+ Str.nl in
  match untracked with
  | [] => io
  | _ =>
      let io := io +:+ "# possible .gitignore rule" +:+ suffix +:+ ":" +:+ Str.nl in
      fold_left (λ io u, io +:+ "/" +:+ u) untracked io
  end.

Definition UntrackedSummary_init : M Command :=
  base ← Command_init;
  m ← get_model;
  let untracked := Model.untracked m in
  mret (with_new_mode mode_untracked
          (with_new_diff_text (UntrackedSummary_text untracked) base)).

(** *** SignOff *)

Definition SignOff_init : M SignOff :=
  base ← Command_init;
  m ← get_model;
  mret {| so_base := with_undoable true base;
          so_old_commitmsg := Model.commitmsg m |}.

(** [pw_name ext = None] stands for a platform without the [pwd] module. *)
Definition SignOff_signoff : M string :=
  env ← get_environ;
  let user :=
    match pw_name ext with
    | Some u => u
    | None => default "unknown" (env !! "USER")
    end in
  let name := default user (config_get ext "user.name") in
  let email :=
    default (user +:+ "@" +:+ platform_node ext) (config_get ext "user.email") in
  mret (Str.nl +:+ "Signed-off-by: " +:+ name +:+ " <" +:+ email +:+ ">").

Definition SignOff_do (self : SignOff) : M unit :=
  signoff ← SignOff_signoff;
  m ← get_model;
  if Str.contains signoff (Model.commitmsg m) then mret tt
  else set_commitmsg (Model.commitmsg m +:+ Str.nl +:+ signoff).

Definition SignOff_undo (self : SignOff) : M unit :=
  set_commitmsg (so_old_commitmsg self).

(** *** Stage, Unstage, UnstageAll, Untrack *)

Definition PathsCommand_init (paths : list string) : M PathsCommand :=
  base ← Command_init;
  mret {| pc_base := base; pc_paths := paths |}.

Definition Stage_init := PathsCommand_init.
Definition Unstage_init := PathsCommand_init.
Definition Untrack_init := PathsCommand_init.

Definition Stage_do (self : PathsCommand) : M unit :=
  let msg := "Staging: " +:+ Str.join ", " (pc_paths self) in
  broadcast (log_cmd 0 msg);;
  model_stage_paths (pc_paths self).

Definition Unstage_do (self : PathsCommand) : M unit :=
  let msg := "Unstaging: " +:+ Str.join ", " (pc_paths self) in
  broadcast (log_cmd 0 msg);;
  model_unstage_paths (pc_paths self).

Definition UnstageAll_do (self : Command) : M unit :=
  model_unstage_all.

Definition Untrack_do (self : PathsCommand) : M unit :=
  let msg := "Untracking: " +:+ Str.join ", " (pc_paths self) in
  broadcast (log_cmd 0 msg);;
  '(status, out) ← model_untrack_paths (pc_paths self);
  broadcast (log_cmd status out).

(** *** ApplyPatches *)

(** [patches.sort()]: Python's stable merge sort with the byte-wise order
    on strings. *)
Definition ApplyPatches_init (patches : list string) : M ApplyPatches :=
  base ← Command_init;
  let patches := merge_sort String.le patches in
  mret {| ap_base := base; ap_patches := patches |}.

(** The loop over [enumerate(self.patches)], from index [idx] on. *)
Fixpoint ApplyPatches_loop (num_patches idx : nat) (patches : list string)
    (diff_text : string) : M string :=
  match patches with
  | [] => mret diff_text
  | patch :: rest =>
      '(status, output) ← model_git_am patch;
      broadcast (log_cmd status output);;
      diff_text ←
        (if (1 <? num_patches)%nat then
           diff ← model_git_diff_stat "HEAD^!";
           mret (diff_text
                 +:+ ("Patch " +:+ pretty (idx + 1)%nat +:+ "/"
                        +:+ pretty num_patches +:+ " - ")
                 +:+ (Str.basename patch +:+ ":" +:+ Str.nl +:+ diff
                        +:+ Str.nl +:+ Str.nl))
         else mret diff_text);
      ApplyPatches_loop num_patches (S idx) rest diff_text
  end.

Definition ApplyPatches_do (self : ApplyPatches) : M unit :=
  let diff_text := "" in
  let num_patches := length (ap_patches self) in
  orig_head ← model_git_rev_parse "HEAD";
  diff_text ← ApplyPatches_loop num_patches 0 (ap_patches self) diff_text;
  let diff_text := diff_text +:+ ("Summary:" +:+ Str.nl) in
  summary ← model_git_diff_stat orig_head;
  let diff_text := diff_text +:+ summary in
  set_diff_text diff_text;;
  model_update_file_status;;
  prompt_information "Patch(es) Applied"
    (pretty (length (ap_patches self)) +:+ " patch(es) applied:"
       +:+ Str.nl +:+ Str.nl
       +:+ Str.join Str.nl (map Str.basename (ap_patches self))).

(** *** RunConfigAction *)

Definition RunConfigAction_init (name : string) : M RunConfigAction :=
  base ← Command_init;
  mret {| rca_base := base; rca_name := name |}.

(** A value used where Python needs a string. *)
Definition as_str (v : OptValue) : M string :=
  match v with
  | VStr s => mret s
  | _ => raise TypeError
  end.

(** How a run of [RunConfigAction.do] ends: it returns ([None] or the exit
    status), or the user is still being asked after [fuel] rounds of the
    revision dialog. *)
Inductive RunOutcome : Type :=
| Returned (status : option Z)
| StillPrompting.

Inductive DialogOutcome : Type :=
| Cancelled
| Accepted (opts : gmap string OptValue) (rev args : OptValue)
| Unanswered.

(** The [while True] loop of the revision and arguments dialog. *)
Fixpoint RunConfigAction_dialog (fuel : nat) (cmd : OptValue)
    (opts : gmap string OptValue) : M DialogOutcome :=
  match fuel with
  | O => mret Unanswered
  | S fuel' =>
      '(ok, opts) ← prompt_run_config_action (format_value cmd) opts;
      if negb ok then mret Cancelled
      else
        let rev := opts_get opts "revision" in
        let args := opts_get opts "args" in
        if truthy (opts_get opts "revprompt") && negb (truthy rev) then
          prompt_critical "Invalid Revision"
            "The revision expression cannot be empty.";;
          RunConfigAction_dialog fuel' cmd opts
        else mret (Accepted opts rev args)
  end.

(** From [if rev:] to the end of [do]. *)
Definition RunConfigAction_run (self : RunConfigAction) (cmd : OptValue)
    (opts : gmap string OptValue) (rev args : OptValue) : M RunOutcome :=
  (if truthy rev then
     r ← as_str rev; update_environ (<["REVISION" := r]>)
   else mret tt);;
  (if truthy args then
     a ← as_str args; update_environ (<["ARGS" := a]>)
   else mret tt);;
  cmd ← as_str cmd;
  env ← get_environ;
  let title := expandvars ext env cmd in
  broadcast (log_cmd 0 ("running: " +:+ title));;
  let cmd := ["sh"; "-c"; cmd] in
  '(status, out, err) ←
    (if truthy (opts_get opts "noconsole") then utils_run_command cmd
     else prompt_run_command title cmd);
  broadcast (log_cmd status
               ("stdout: " +:+ Str.rstrip out +:+ Str.nl +:+
                "status: " +:+ pretty status +:+ Str.nl +:+
                "stderr: " +:+ Str.rstrip err));;
  (if negb (truthy (opts_get opts "norescan")) then model_update_status
   else mret tt);;
  mret (Returned (Some status)).

(** From the prompts on: the dialog, or the confirmation, or neither. *)
Definition RunConfigAction_prompts (fuel : nat) (self : RunConfigAction)
    (cmd : OptValue) (opts : gmap string OptValue) : M RunOutcome :=
  if truthy (opts_get opts "revprompt") || truthy (opts_get opts "argprompt") then
    outcome ← RunConfigAction_dialog fuel cmd opts;
    match outcome with
    | Cancelled => mret (Returned None)
    | Unanswered => mret StillPrompting
    | Accepted opts rev args => RunConfigAction_run self cmd opts rev args
    end
  else if truthy (opts_get opts "confirm") then
    env ← get_environ;
    title ← as_str (opts_get opts "title");
    prompt ← as_str (opts_get opts "prompt");
    let title := expandvars ext env title in
    let prompt := expandvars ext env prompt in
    ok ← prompt_question title prompt;
    if negb ok then mret (Returned None)
    else RunConfigAction_run self cmd opts VNone VNone
  else RunConfigAction_run self cmd opts VNone VNone.

Definition is_True (v : OptValue) : bool :=
  match v with
  | VBool true => true
  | _ => false
  end.

Definition RunConfigAction_do (fuel : nat) (self : RunConfigAction) : M RunOutcome :=
  update_environ (delete "FILENAME");;
  update_environ (delete "REVISION");;
  update_environ (delete "ARGS");;
  let opts := get_guitool_opts ext (rca_name self) in
  let cmd := opts_get opts "cmd" in
  let opts :=
    match opts !! "title" with
    | None => <["title" := cmd]> opts
    | Some _ => opts
    end in
  let opts :=
    if bool_decide (opts !! "prompt" = None) || is_True (opts_get opts "prompt") then
      let prompt :=
        format_s (gettext ext "Are you sure you want to run %s?") (format_value cmd) in
      <["prompt" := VStr prompt]> opts
    else opts in
  if truthy (opts_get opts "needsfile") then
    match selection_filename ext with
    | Some filename =>
        if String.eqb filename "" then
          prompt_information "Please select a file"
            (Str.dq +:+ format_value cmd +:+ Str.dq +:+ " requires a selected file");;
          mret (Returned None)
        else
          update_environ (<["FILENAME" := filename]>);;
          RunConfigAction_prompts fuel self cmd opts
    | None =>
        prompt_information "Please select a file"
          (Str.dq +:+ format_value cmd +:+ Str.dq +:+ " requires a selected file");;
        mret (Returned None)
    end
  else RunConfigAction_prompts fuel self cmd opts.

(** *** Commands by class *)

(** The signals [register] maps to the classes above, with the arguments
    the class is constructed from. *)
Inductive Request : Type :=
| amend_mode (amend : bool)
| apply_patches (patches : list string)
| reset_mode
| commit (amend : bool) (msg : string)
| load_commit_message (path : string)
| load_commit_template
| load_previous_message (sha1 : string)
| run_config_action_request (name : string)
| set_diff_text_request (text : string)
| show_untracked (filenames : list string)
| signoff
| stage (paths : list string)
| unstage (paths : list string)
| unstage_all_request
| untrack (paths : list string)
| untracked_summary.

(** Constructing the command object of a request. *)
Definition construct (r : Request) : M CmdObj :=
  match r with
  | amend_mode a => ObjAmendMode <$> AmendMode_init a
  | apply_patches ps => ObjApplyPatches <$> ApplyPatches_init ps
  | reset_mode => ObjResetMode <$> ResetMode_init
  | commit a msg => ObjCommit <$> Commit_init a msg
  | load_commit_message path => ObjLoadCommitMessage <$> LoadCommitMessage_init (Some path)
  | load_commit_template => ObjLoadCommitTemplate <$> LoadCommitTemplate_init
  | load_previous_message sha1 => ObjLoadPreviousMessage <$> LoadPreviousMessage_init sha1
  | run_config_action_request name => ObjRunConfigAction <$> RunConfigAction_init name
  | set_diff_text_request text => ObjSetDiffText <$> SetDiffText_init text
  | show_untracked fs => ObjShowUntracked <$> ShowUntracked_init fs
  | signoff => ObjSignOff <$> SignOff_init
  | stage ps => ObjStage <$> Stage_init ps
  | unstage ps => ObjUnstage <$> Unstage_init ps
  | unstage_all_request => ObjUnstageAll <$> Command_init
  | untrack ps => ObjUntrack <$> Untrack_init ps
  | untracked_summary => ObjUntrackedSummary <$> UntrackedSummary_init
  end.

(** The [Command] part of a command object. *)
Definition base_of (o : CmdObj) : Command :=
  match o with
  | ObjAmendMode c => am_base c
  | ObjApplyPatches c => ap_base c
  | ObjCommit c => ci_base c
  | ObjLoadCommitMessage c | ObjLoadCommitTemplate c => lcm_base c
  | ObjLoadPreviousMessage c => lpm_base c
  | ObjRunConfigAction c => rca_base c
  | ObjSignOff c => so_base c
  | ObjStage c | ObjUnstage c | ObjUntrack c => pc_base c
  | ObjResetMode c | ObjSetDiffText c | ObjShowUntracked c
  | ObjUnstageAll c | ObjUntrackedSummary c => c
  end.

(** [cmdobj.is_undoable()] *)
Definition cmd_is_undoable (o : CmdObj) : bool := is_undoable (base_of o).

(** [cmdobj.do()], by method resolution; gives back the object, which
    [AmendMode.do] changes. *)
Definition cmd_do (fuel : nat) (o : CmdObj) : M CmdObj :=
  match o with
  | ObjAmendMode c => ObjAmendMode <$> AmendMode_do c
  | ObjApplyPatches c => ApplyPatches_do c;; mret o
  | ObjResetMode c => ResetMode_do c;; mret o
  | ObjCommit c => Commit_do c;; mret o
  | ObjLoadCommitMessage c => LoadCommitMessage_do c;; mret o
  | ObjLoadCommitTemplate c => LoadCommitTemplate_do c;; mret o
  | ObjLoadPreviousMessage c => LoadPreviousMessage_do c;; mret o
  | ObjRunConfigAction c => RunConfigAction_do fuel c;; mret o
  | ObjSetDiffText c | ObjShowUntracked c | ObjUntrackedSummary c =>
      Command_do c;; mret o
  | ObjSignOff c => SignOff_do c;; mret o
  | ObjStage c => Stage_do c;; mret o
  | ObjUnstage c => Unstage_do c;; mret o
  | ObjUnstageAll c => UnstageAll_do c;; mret o
  | ObjUntrack c => Untrack_do c;; mret o
  end.

(** [cmdobj.undo()], by method resolution: the classes without an [undo]
    of their own inherit [Command.undo]. *)
Definition cmd_undo (o : CmdObj) : M unit :=
  match o with
  | ObjAmendMode c => AmendMode_undo c
  | ObjLoadCommitMessage c | ObjLoadCommitTemplate c => LoadCommitMessage_undo c
  | ObjLoadPreviousMessage c => LoadPreviousMessage_undo c
  | ObjSignOff c => SignOff_undo c
  | _ => Command_undo (base_of o)
  end.

End Commands.

(** ** A sample session, for evaluating the commands *)

Definition sample_model : Model.t :=
  {| Model.diff_text := "diff --git a/x.py b/x.py";
     Model.filename := Some "x.py";
     Model.mode := mode_worktree;
     Model.head := "HEAD";
     Model.commitmsg := "Fix the parser";
     Model.directory := "/repo";
     Model.staged := [];
     Model.modified := ["x.py"];
     Model.untracked := ["a.txt"; "b.txt"];
     Model.unmerged := [] |}.

(** A tool that needs a selected file. *)
Definition sample_tool_opts : gmap string OptValue :=
  {[ "cmd" := VStr "wc -l $FILENAME"; "needsfile" := VBool true ]}.

(** Collaborators of a session in which git succeeds iff [git_ok], a merge
    is in progress iff [merging], and no file is selected. *)
Definition sample_ext (git_ok merging : bool) : Ext :=
  {| path_exists := λ p, merging && String.eqb p ".git/MERGE_HEAD";
     path_isfile := λ p, String.eqb p "/repo/template.txt";
     slurp := λ p, if String.eqb p "/repo/template.txt" then Some "Subject" else None;
     dirname := λ _, "/repo";
     tmp_filename := λ _ label, "/tmp/" +:+ label;
     git_path := λ name, ".git/" +:+ name;
     prev_commitmsg := λ _, "Previous commit";
     run_commit := λ _ _ _ _, if git_ok then (0%Z, "created") else (1%Z, "nothing to commit");
     run_am := λ _ _, if git_ok then (0%Z, "Applying") else (128%Z, "Patch failed");
     run_rev_parse := λ _ _, "0123abc";
     run_diff_stat := λ _ _, " 1 file changed";
     run_untrack := λ _ _, (0%Z, "rm");
     status_scan := λ _, {| sl_staged := ["x.py"]; sl_modified := [];
                            sl_untracked := []; sl_unmerged := [] |};
     config_get := λ key, if String.eqb key "user.name" then Some "A U Thor" else None;
     get_guitool_opts := λ _, sample_tool_opts;
     selection_filename := None;
     pw_name := Some "author";
     platform_node := "host";
     gettext := λ s, s;
     expandvars := λ _ s, s;
     answer_question := λ _ _ _, true;
     answer_run_config_action := λ _ _ opts, (true, opts);
     answer_run_command := λ _ _ _, (0%Z, "", "");
     shell_run := λ _ _, (0%Z, "", "") |}.

Definition sample_world : World :=
  {| model := sample_model;
     environ := {[ "FILENAME" := "old.py"; "HOME" := "/home/author" ]};
     undostack := [];
     trace := [] |}.

(** ** Reading the trace *)

(** The signals broadcast, in order. *)
Definition broadcasts (t : list Effect) : list Signal :=
  omap (λ e, match e with Broadcast s => Some s | _ => None end) t.

(** The patches handed to [git am], in order. *)
Definition am_calls (t : list Effect) : list string :=
  omap (λ e, match e with Git (git_am p) => Some p | _ => None end) t.

(** The effects a program performs when started in [w]. *)
Definition effects_of {A : Type} (prog : M A) (w : World) : list Effect :=
  drop (length (trace w)) (trace (snd (prog w))).

(** An effect that runs a shell command: directly, or through the console
    dialog. *)
Definition runs_shell (e : Effect) : bool :=
  match e with
  | Shell _ => true
  | PromptUser (run_command _ _) => true
  | _ => false
  end.

(** ** The commit message recovery rule, as the design states it *)

(** Walk the commands from the most recent one on: skip what is not an
    amend-entering AmendMode command, stop at the first one that is and take
    the message it saved; without one, keep the live message. *)
Fixpoint walk_recent_first (recent_first : list CmdObj) (live : string) : string :=
  match recent_first with
  | [] => live
  | ObjAmendMode c :: older =>
      if am_amending c then am_old_commitmsg c else walk_recent_first older live
  | _ :: older => walk_recent_first older live
  end.

Definition recovered_commitmsg (undostack : list CmdObj) (live : string) : string :=
  walk_recent_first (rev undostack) live.

(** A command object as [Command.__init__] leaves it in [sample_world]. *)
Definition sample_command : Command :=
  {| undoable := false;
     old_diff_text := "diff --git a/x.py b/x.py";
     old_filename := Some "x.py";
     old_mode := mode_worktree;
     old_head := "HEAD";
     new_diff_text := "diff --git a/x.py b/x.py";
     new_filename := Some "x.py";
     new_head := "HEAD";
     new_mode := mode_worktree |}.

(** [AmendMode(True)] built in [sample_world]. *)
Definition sample_amend : AmendMode :=
  {| am_base := with_new_head "HEAD^" (with_new_mode mode_amend
                                         (with_undoable true sample_command));
     am_skip := false;
     am_amending := true;
     am_old_commitmsg := "Fix the parser";
     am_new_commitmsg := "Previous commit" |}.

(** [RunConfigAction] for the sample tool. *)
Definition sample_tool : RunConfigAction :=
  {| rca_base := sample_command; rca_name := "count" |}.

(** ** Reading requests and the undo stack *)

(** The requests whose class sets [undoable]. *)
Definition request_undoable (r : Request) : bool :=
  match r with
  | amend_mode _ | load_commit_message _ | load_commit_template
  | load_previous_message _ | set_diff_text_request _ | signoff => true
  | _ => false
  end.

(** An [AmendMode] command that enters amend mode. *)
Definition is_amend_entering (o : CmdObj) : bool :=
  match o with
  | ObjAmendMode c => am_amending c
  | _ => false
  end.


(** The rule lines [UntrackedSummary] writes, one after the other. *)
Definition untracked_rules (untracked : list string) : string :=
  String.concat "" (map (λ u, "/" +:+ u) untracked).

(** The command string of the tool [RunConfigAction.do] runs. *)
Definition RunConfigAction_cmd (ext : Ext) (self : RunConfigAction) : OptValue :=
  opts_get (get_guitool_opts ext (rca_name self)) "cmd".

(** The options [RunConfigAction.do] works with: those of the tool, with
    the defaults for [title] and [prompt] filled in. *)
Definition RunConfigAction_opts (ext : Ext) (self : RunConfigAction)
    : gmap string OptValue :=
  let opts := get_guitool_opts ext (rca_name self) in
  let cmd := opts_get opts "cmd" in
  let opts :=
    match opts !! "title" with
    | None => <["title" := cmd]> opts
    | Some _ => opts
    end in
  if bool_decide (opts !! "prompt" = None) || is_True (opts_get opts "prompt") then
    let prompt :=
      format_s (gettext ext "Are you sure you want to run %s?") (format_value cmd) in
    <["prompt" := VStr prompt]> opts
  else opts.

(** The environment after [do] has removed the tool variables. *)
Definition cleared (env : gmap string string) : gmap string string :=
  delete "ARGS" (delete "REVISION" (delete "FILENAME" env)).

(** A tool with a dialog whose revision the user has filled in. *)
Definition sample_dialog_opts : gmap string OptValue :=
  {[ "cmd" := VStr "git show $REVISION"; "revprompt" := VBool true;
     "revision" := VStr "HEAD~1" ]}.

(** ** Commands on branches, diffs and files *)

(** What these commands do to their host: an effect of the kinds above, or
    one of the calls below, in order. *)
Inductive Action : Type :=
| Did (e : Effect)
| GitCheckout (argv : list string)
| GitTag (name revision : string) (F : option string) (s : bool) (a : option bool)
| DeleteBranchCall (branch : string)
| DiffHelper (filename : option string) (cached : bool) (ref : option string)
| ProcessDiffSelection (filename : option string) (cached reverse selected : bool)
    (offset : Z) (selection : string) (apply_to_worktree : bool)
| PromptArgs (signal : string) (args : list string).

(** The state of the host: the session, the files by path, and what has
    been done so far. *)
Record Sys : Type := {
  world : World;
  files : gmap string string;
  actions : list Action;
}.

(** What git and the diff parser answer; an answer takes the actions made so
    far. *)
Record Host : Type := {
  run_checkout : list Action → list string → Z * string;
  run_tag : list Action → string → string → option string → bool → option bool
            → Z * string;
  run_delete_branch : list Action → string → Z * string;
  run_diff_helper : list Action → option string → bool → option string → string;
  run_process_diff_selection :
    list Action → option string → bool → bool → bool → Z → string → bool → Z * string;
}.

Definition HostM (A : Type) : Type := Sys → result A * Sys.

Global Instance HostM_ret : MRet HostM := λ A a s, (Ok a, s).

Global Instance HostM_bind : MBind HostM := λ A B k m s,
  match m s with
  | (Ok a, s') => k a s'
  | (Raise e, s') => (Raise e, s')
  end.

(** A program of the session, run on the host: its effects are appended to
    the actions. *)
Definition lift {A : Type} (prog : M A) : HostM A := λ s,
  let '(r, w') := prog (world s) in
  (r, {| world := w'; files := files s;
         actions := actions s ++ map Did (effects_of prog (world s)) |}).

Definition act (a : Action) : HostM unit := λ s,
  (Ok tt, {| world := world s; files := files s; actions := actions s ++ [a] |}).

Definition past : HostM (list Action) := λ s, (Ok (actions s), s).

Definition host_try_except {A : Type} (body handler : HostM A) : HostM A := λ s,
  match body s with
  | (Ok a, s') => (Ok a, s')
  | (Raise _, s') => handler s'
  end.

(** [os.path.exists(path)] *)
Definition os_path_exists (path : string) : HostM bool := λ s,
  (Ok (bool_decide (is_Some (files s !! path))), s).

(** [utils.slurp(path)] on the files of the host. *)
Definition host_slurp (path : string) : HostM string := λ s,
  match files s !! path with
  | Some content => (Ok content, s)
  | None => (Raise (IOError path), s)
  end.

(** [utils.write(path, content)] *)
Definition utils_write (path content : string) : HostM unit := λ s,
  (Ok tt, {| world := world s; files := <[path := content]> (files s);
             actions := actions s |}).

(** [os.remove(path)] and [os.unlink(path)]: raise when there is no such
    file ([IOError] stands for the [OSError] of Python). *)
Definition os_remove (path : string) : HostM unit := λ s,
  match files s !! path with
  | Some _ => (Ok tt, {| world := world s; files := delete path (files s);
                         actions := actions s |})
  | None => (Raise (IOError path), s)
  end.

(** [s[1:]] *)
Definition string_tail (s : string) : string :=
  match s with
  | EmptyString => EmptyString
  | String _ rest => rest
  end.

Definition with_new_filename (v : option string) (c : Command) : Command :=
  {| undoable := undoable c;
     old_diff_text := old_diff_text c; old_filename := old_filename c;
     old_mode := old_mode c; old_head := old_head c;
     new_diff_text := new_diff_text c; new_filename := v;
     new_head := new_head c; new_mode := new_mode c |}.

Record Checkout : Type := {
  co_base : Command;
  co_argv : list string;
  co_checkout_branch : bool;
}.

Record ApplyDiffSelection : Type := {
  ads_base : Command;
  ads_staged : bool;
  ads_selected : bool;
  ads_offset : Z;
  ads_selection : string;
  ads_apply_to_worktree : bool;
}.

Record Tag : Type := {
  tag_base : Command;
  tag_name : string;
  tag_message : string;
  tag_revision : string;
  tag_sign : bool;
}.

Record FilesCommand : Type := {
  fc_base : Command;
  fc_filenames : list string;
}.

Section HostCommands.

Context (ext : Ext) (host : Host).

(** *** Checkout, CheckoutBranch, DeleteBranch *)

(** [checkout_branch] is [False] unless given. *)
Definition Checkout_init (argv : list string) (checkout_branch : bool) : M Checkout :=
  base ← Command_init;
  mret {| co_base := with_new_diff_text "" base;
          co_argv := argv;
          co_checkout_branch := checkout_branch |}.

Definition Checkout_do (self : Checkout) : HostM unit :=
  h ← past;
  act (GitCheckout (co_argv self));;
  let '(status, output) := run_checkout host h (co_argv self) in
  lift (broadcast (log_cmd status output));;
  if co_checkout_branch self then lift (model_update_status ext)
  else lift (model_update_file_status ext).

(** [CheckoutBranch.__init__] takes [checkout_branch] and calls
    [Checkout.__init__(self, [branch])] without it. *)
Definition CheckoutBranch_init (branch : string) (checkout_branch : bool) : M Checkout :=
  Checkout_init [branch] false.

(** [do] of a [DeleteBranch] command for [branch]. *)
Definition DeleteBranch_do (branch : string) : HostM unit :=
  h ← past;
  act (DeleteBranchCall branch);;
  let '(status, output) := run_delete_branch host h branch in
  let title := "" in
  let '(title, output) :=
    if String.prefix "error:" output then (title, "E" +:+ string_tail output)
    else ("Info: ", output) in
  lift (broadcast (log_cmd status (title +:+ output))).

(** *** Diff, DiffStaged, ApplyDiffSelection *)

(** [gitcmds.diff_helper(filename=..., cached=..., **opts)], where [opts]
    holds [ref] when given. *)
Definition gitcmds_diff_helper (filename : option string) (cached : bool)
    (ref : option string) : HostM string :=
  h ← past;
  act (DiffHelper filename cached ref);;
  mret (run_diff_helper host h filename cached ref).

(** An element of [filenames] may be [None], as the model's file name is. *)
Definition Diff_init (filenames : list (option string)) (cached : bool)
    : HostM Command :=
  self ← lift Command_init;
  match filenames with
  | [] => mret self
  | first :: _ =>
      m ← lift get_model;
      let ref := if cached then Some (Model.head m) else None in
      let self := with_new_filename first self in
      let self := with_new_mode mode_worktree self in
      text ← gitcmds_diff_helper (new_filename self) cached ref;
      mret (with_new_diff_text text self)
  end.

Definition DiffStaged_init (filenames : list (option string)) : HostM Command :=
  self ← Diff_init filenames true;
  mret (with_new_mode mode_index self).

Definition ApplyDiffSelection_init (staged selected : bool) (offset : Z)
    (selection : string) (apply_to_worktree : bool) : M ApplyDiffSelection :=
  base ← Command_init;
  mret {| ads_base := base; ads_staged := staged; ads_selected := selected;
          ads_offset := offset; ads_selection := selection;
          ads_apply_to_worktree := apply_to_worktree |}.

(** Building the diff parser and asking it to process the selection is one
    call of the host. *)
Definition ApplyDiffSelection_do (self : ApplyDiffSelection) : HostM unit :=
  m ← lift get_model;
  h ← past;
  act (ProcessDiffSelection (Model.filename m) (ads_staged self)
         (ads_apply_to_worktree self) (ads_selected self) (ads_offset self)
         (ads_selection self) (ads_apply_to_worktree self));;
  let '(status, output) :=
    run_process_diff_selection host h (Model.filename m) (ads_staged self)
      (ads_apply_to_worktree self) (ads_selected self) (ads_offset self)
      (ads_selection self) (ads_apply_to_worktree self) in
  lift (broadcast (log_cmd status output));;
  m ← lift get_model;
  diffcmd ← (if ads_staged self then DiffStaged_init [Model.filename m]
             else Diff_init [Model.filename m] false);
  lift (Command_do diffcmd);;
  lift (model_update_file_status ext).

(** *** Tag *)

Definition Tag_init (name revision : string) (sign : bool) (message : string) : M Tag :=
  base ← Command_init;
  mret {| tag_base := base; tag_name := name; tag_message := message;
          tag_revision := revision; tag_sign := sign |}.



(** *** Ignore and Delete *)

Definition FilesCommand_init (filenames : list string) : M FilesCommand :=
  base ← Command_init;
  mret {| fc_base := base; fc_filenames := filenames |}.

Definition Ignore_do (self : FilesCommand) : HostM unit :=
  let new_additions :=
    fold_left (λ acc fname, acc +:+ fname +:+ Str.nl) (fc_filenames self) "" in
  let for_status := new_additions in
  if negb (String.eqb new_additions "") then
    os_path_exists ".gitignore" ≫= λ present : bool,
    new_additions ←
      (if present then
         current_list ← host_slurp ".gitignore";
         mret (new_additions +:+ current_list)
       else mret new_additions);
    utils_write ".gitignore" new_additions;;
    lift (broadcast (log_cmd 0 ("Added to .gitignore:" +:+ Str.nl +:+ for_status)));;
    lift (model_update_file_status ext)
  else mret tt.



End HostCommands.

(** A host whose git calls succeed, with a [.gitignore] and one more file. *)
Definition sample_host : Host :=
  {| run_checkout := λ _ _, (0%Z, "Switched");
     run_tag := λ _ _ _ _ _ _, (0%Z, "");
     run_delete_branch := λ _ _, (0%Z, "Deleted branch topic");
     run_diff_helper := λ _ _ _ _, "diff";
     run_process_diff_selection := λ _ _ _ _ _ _ _ _, (0%Z, "") |}.

Definition sample_sys : Sys :=
  {| world := sample_world;
     files := {[ ".gitignore" := "*.pyc"; "junk.txt" := "junk" ]};
     actions := [] |}.

(** The lines [Ignore] adds: every file name followed by a line break. *)
Definition ignore_lines (filenames : list string) : string :=
  String.concat "" (map (λ fname, fname +:+ Str.nl) filenames).


(** ** More sample sessions *)

(** The collaborators of [sample_ext true false] with the options of the
    tool, the selected file, the user's answers to the tool dialog and to a
    question, and whether the commit template can be read, as given. *)
Definition tool_ext (opts : gmap string OptValue) (selected : option string)
    (dialog_ok question_ok readable : bool) : Ext :=
  {| path_exists := λ _, false;
     path_isfile := λ p, String.eqb p "/repo/template.txt";
     slurp := λ p,
       if readable && String.eqb p "/repo/template.txt" then Some "Subject" else None;
     dirname := λ _, "/repo";
     tmp_filename := λ _ label, "/tmp/" +:+ label;
     git_path := λ name, ".git/" +:+ name;
     prev_commitmsg := λ _, "Previous commit";
     run_commit := λ _ _ _ _, (0%Z, "created");
     run_am := λ _ _, (0%Z, "Applying");
     run_rev_parse := λ _ _, "0123abc";
     run_diff_stat := λ _ _, " 1 file changed";
     run_untrack := λ _ _, (0%Z, "rm");
     status_scan := λ _, {| sl_staged := ["x.py"]; sl_modified := [];
                            sl_untracked := []; sl_unmerged := [] |};
     config_get := λ key, if String.eqb key "user.name" then Some "A U Thor" else None;
     get_guitool_opts := λ _, opts;
     selection_filename := selected;
     pw_name := Some "author";
     platform_node := "host";
     gettext := λ s, s;
     expandvars := λ _ s, s;
     answer_question := λ _ _ _, question_ok;
     answer_run_config_action := λ _ _ o, (dialog_ok, o);
     answer_run_command := λ _ _ _, (0%Z, "", "");
     shell_run := λ _ _, (0%Z, "", "") |}.

(** A tool that asks for confirmation, and one that runs at once. *)
Definition sample_confirm_opts : gmap string OptValue :=
  {[ "cmd" := VStr "git gc"; "confirm" := VBool true ]}.

Definition sample_plain_opts : gmap string OptValue :=
  {[ "cmd" := VStr "git gc"; "noconsole" := VBool true ]}.

(** The sample session after amend mode was entered and a diff text set. *)
Definition sample_world_amending : World :=
  {| model := Model.set_commitmsg "Previous commit, reworded" sample_model;
     environ := ∅;
     undostack := [ObjAmendMode sample_amend; ObjSetDiffText sample_command];
     trace := [] |}.

(** A command for the commit template of the sample session. *)
Definition sample_template : LoadCommitMessage :=
  {| lcm_base := with_undoable true sample_command;
     lcm_path := Some "/repo/template.txt";
     lcm_old_commitmsg := "Fix the parser";
     lcm_old_directory := "/repo" |}.

(** ** Properties *)

(** Unfolds the monad and the primitive programs. *)
Ltac unfold_M :=
  unfold broadcast, set_diff_text, set_filename, set_mode, set_head,
    set_commitmsg, set_directory in *;
  unfold mbind, mret, fmap in *;
  unfold M_bind, M_ret, M_fmap, raise, try_except,
    get_model, update_model, get_environ, update_environ, get_undostack,
    history, emit in *.

Ltac unfold_collab :=
  unfold prompt_information, prompt_critical, prompt_question,
    model_update_status, model_update_file_status, model_stage_paths,
    model_unstage_paths, model_unstage_all, model_untrack_paths,
    model_commit_with_msg, model_git_am, model_git_rev_parse,
    model_git_diff_stat, utils_slurp, getitem in *;
  unfold rescan_after in *.

Ltac run := unfold_collab; unfold_M; cbn in *.

(** ** The claims about effects, as predicates on traces *)

(** A [log_cmd] broadcast that names every path of [paths] comes before the
    model call [c]. *)
Definition logs_before_call (paths : list string) (c : ModelCall)
    (t : list Effect) : Prop :=
  ∃ before status msg between after,
    t = before ++ Broadcast (log_cmd status msg) :: between ++ Call c :: after ∧
    Forall (λ p, Str.occurs_in p msg) paths.

(** The variables [RunConfigAction] hands to a tool. *)
Definition tool_variables : list string := ["FILENAME"; "REVISION"; "ARGS"].

(** The tool variables have the same value (or absence) in both states. *)
Definition keeps_tool_variables (w w' : World) : Prop :=
  Forall (λ v, environ w' !! v = environ w !! v) tool_variables.

Section Properties.

Context (ext : Ext).

Lemma Commit_init_spec (amend : bool) (msg : string) (w : World) :
  ∃ self,
    Commit_init amend msg w = (Ok self, w) ∧
    ci_msg self = msg ∧ ci_amend self = amend ∧ ci_new_commitmsg self = "" ∧
    new_mode (ci_base self) = mode_none ∧
    new_head (ci_base self) = "HEAD" ∧
    new_diff_text (ci_base self) = "".
Proof. eexists. unfold Commit_init, ResetMode_init, Command_init. run. repeat split. Qed.

(** C3: with the merge marker present, [do] of an amend-entering
    [AmendMode] command changes nothing in the model and flags the command
    as skipped, after which [undo] changes nothing, however often it is
    called. *)
Theorem AmendMode_refused_while_merging (self : AmendMode) (w : World) :
  am_amending self = true →
  path_exists ext (git_path ext "MERGE_HEAD") = true →
  ∃ self' w',
    AmendMode_do ext self w = (Ok self', w') ∧
    model w' = model w ∧
    am_skip self' = true ∧
    ∀ w2 : World, AmendMode_undo ext self' w2 = (Ok tt, w2).
Proof.
  intros Hamend Hmerge.
  unfold AmendMode_do. rewrite Hamend, Hmerge. run.
  do 2 eexists. split; [reflexivity|]. repeat split.
Qed.

(** C2: [Commit.do] resets mode, head and diff text and clears the commit
    message exactly when the commit's exit status is zero; otherwise the
    model is left as it was.  Either way one signal is broadcast, [log_cmd]
    with the status and the output behind the matching title. *)
Theorem Commit_do_resets_only_on_success
    (amend : bool) (msg : string) (w0 : World) (w : World) :
  ∃ self w',
    Commit_init amend msg w0 = (Ok self, w0) ∧
    Commit_do ext self w = (Ok tt, w') ∧
    let '(status, output) :=
      run_commit ext (trace w) msg (tmp_filename ext (trace w) "commit-message") amend in
    if (status =? 0)%Z then
      Model.mode (model w') = mode_none ∧
      Model.head (model w') = "HEAD" ∧
      Model.diff_text (model w') = "" ∧
      Model.commitmsg (model w') = "" ∧
      broadcasts (effects_of (Commit_do ext self) w)
        = [log_cmd status ("Commit: " +:+ output)]
    else
      model w' = model w ∧
      broadcasts (effects_of (Commit_do ext self) w)
        = [log_cmd status ("Commit failed: " +:+ output)].
Proof.
  destruct (Commit_init_spec amend msg w0)
    as (self & Hinit & Hmsg & Hamend & Hnew & Hmode & Hhead & Hdiff).
  exists self, (snd (Commit_do ext self w)).
  split; [exact Hinit|].
  unfold effects_of, Commit_do, ResetMode_do, Command_do. run.
  rewrite Hmsg, Hamend.
  destruct (run_commit _ _ _ _ _) as [status output].
  destruct (status =? 0)%Z; run.
  - split; [reflexivity|].
    rewrite <- !app_assoc, drop_app_length.
    rewrite Hnew, Hmode, Hhead, Hdiff. repeat split.
  - split; [reflexivity|].
    rewrite <- !app_assoc, drop_app_length. repeat split.
Qed.

(** C9: constructing [ShowUntracked] always succeeds; the new mode is the
    untracked mode and the new diff text is the content of the first file
    when it can be read, the empty string otherwise, also for an empty
    list of file names. *)
Theorem ShowUntracked_init_total (filenames : list string) (w : World) :
  ∃ self,
    ShowUntracked_init ext filenames w = (Ok self, w) ∧
    new_mode self = mode_untracked ∧
    new_diff_text self =
      match filenames with
      | f :: _ => match slurp ext f with Some content => content | None => "" end
      | [] => ""
      end.
Proof.
  unfold ShowUntracked_init, Command_init. run.
  destruct filenames as [|f fs]; run.
  - eexists. repeat split.
  - destruct (slurp ext f); run; eexists; repeat split.
Qed.

Lemma AmendMode_search_walk (stack : list CmdObj) (live : string) (w : World)
    (n i : nat) :
  (i + n = length stack)%nat →
  AmendMode_search stack (length stack) (seq i n) live w
    = (Ok (walk_recent_first (rev (take n stack)) live), w).
Proof.
  revert i. induction n as [|n IH]; intros i Hlen.
  - rewrite take_0. reflexivity.
  - assert (Hidx : (length stack - i - 1 = n)%nat) by lia.
    destruct (lookup_lt_is_Some_2 stack n) as [x Hx]; [lia|].
    rewrite (take_S_r _ _ _ Hx), rev_app_distr. cbn.
    rewrite Hidx, Hx.
    specialize (IH (S i) ltac:(lia)).
    destruct x; try exact IH.
    destruct (am_amending c); [reflexivity | exact IH].
Qed.

(** C4: the new commit message of an [AmendMode] command that leaves amend
    mode is what the recovery rule gives on the undo stack: the message
    saved by the most recent amend-entering [AmendMode] command, or the
    live message when the stack holds none.  The constructor always
    succeeds and leaves the state as it is. *)
Theorem AmendMode_leave_recovers_commitmsg (w : World) :
  ∃ self,
    AmendMode_init ext false w = (Ok self, w) ∧
    am_amending self = false ∧
    am_new_commitmsg self
      = recovered_commitmsg (undostack w) (Model.commitmsg (model w)).
Proof.
  unfold AmendMode_init, Command_init, recovered_commitmsg. run.
  destruct (undostack w) as [|o stack] eqn:Hstack.
  - eexists. repeat split.
  - rewrite <- Hstack.
    pose proof (AmendMode_search_walk (undostack w)
                  (Model.commitmsg (model w)) w (length (undostack w)) 0
                  ltac:(lia)) as Hwalk.
    rewrite firstn_all in Hwalk.
    change (length (o :: stack)) with (length (undostack w)) || idtac.
    rewrite Hwalk. eexists. repeat split.
Qed.

Lemma am_calls_app (t1 t2 : list Effect) :
  am_calls (t1 ++ t2) = am_calls t1 ++ am_calls t2.
Proof. unfold am_calls. apply omap_app. Qed.

Lemma ApplyPatches_loop_calls (num : nat) (patches : list string) :
  ∀ (idx : nat) (diff_text : string) (w : World),
  ∃ text w',
    ApplyPatches_loop ext num idx patches diff_text w = (Ok text, w') ∧
    am_calls (trace w') = am_calls (trace w) ++ patches.
Proof.
  induction patches as [|p rest IH]; intros idx diff_text w.
  - exists diff_text, w. split; [reflexivity|]. by rewrite app_nil_r.
  - cbn [ApplyPatches_loop].
    destruct (1 <? num)%nat;
      run; destruct (run_am ext (trace w) p) as [status output]; cbn;
      edestruct IH as (text & w' & Hrun & Hcalls);
      (exists text, w'; split; [exact Hrun|]);
      rewrite Hcalls; cbn; rewrite !am_calls_app; cbn;
      rewrite ?app_nil_r, <- ?app_assoc; reflexivity.
Qed.

Lemma ApplyPatches_init_spec (patches : list string) (w : World) :
  ∃ self,
    ApplyPatches_init patches w = (Ok self, w) ∧
    ap_patches self = merge_sort String.le patches.
Proof. eexists. unfold ApplyPatches_init, Command_init. run. split; reflexivity. Qed.

(** C7: [ApplyPatches] hands the patches to [git am] in sorted order,
    whatever the order of the list it was given: the calls made by [do] are
    the list the constructor stored, which is sorted by the byte-wise
    string order and a permutation of the input. *)
Theorem ApplyPatches_applies_in_sorted_order (patches : list string) (w0 w : World) :
  ∃ self w',
    ApplyPatches_init patches w0 = (Ok self, w0) ∧
    ApplyPatches_do ext self w = (Ok tt, w') ∧
    am_calls (trace w') = am_calls (trace w) ++ ap_patches self ∧
    StronglySorted String.le (ap_patches self) ∧
    ap_patches self ≡ₚ patches.
Proof.
  destruct (ApplyPatches_init_spec patches w0) as (self & Hinit & Hsorted).
  destruct (ApplyPatches_loop_calls (length (ap_patches self)) (ap_patches self)
              0 "" (with_trace (trace w ++ [Git (git_rev_parse "HEAD")]) w))
    as (text & w1 & Hrun & Hcalls).
  exists self. eexists. split; [exact Hinit|].
  split; [|split; [|split]].
  - unfold ApplyPatches_do. run. rewrite Hrun. reflexivity.
  - cbn. rewrite !am_calls_app, Hcalls. cbn.
    rewrite am_calls_app. cbn. rewrite !app_nil_r. reflexivity.
  - rewrite Hsorted. apply StronglySorted_merge_sort; apply _.
  - rewrite Hsorted. apply merge_sort_Permutation.
Qed.

(** *** Substrings *)

Lemma prefix_app (s t : string) : String.prefix s (s +:+ t) = true.
Proof.
  induction s as [|a s IH]; [by destruct t|].
  change (String a s +:+ t) with (String a (s +:+ t)). cbn.
  destruct (Ascii.ascii_dec a a); [exact IH | congruence].
Qed.

Lemma contains_app_r (needle pre hay : string) :
  Str.contains needle hay = true → Str.contains needle (pre +:+ hay) = true.
Proof.
  intros H. induction pre as [|a pre IH]; [exact H|].
  change (String a pre +:+ hay) with (String a (pre +:+ hay)).
  cbn [Str.contains]. rewrite IH. apply orb_true_r.
Qed.

Lemma contains_prefix (needle post : string) :
  Str.contains needle (needle +:+ post) = true.
Proof.
  destruct (needle +:+ post) eqn:E; cbn [Str.contains]; rewrite <- E;
    rewrite prefix_app; reflexivity.
Qed.

Lemma prefix_split (needle hay : string) :
  String.prefix needle hay = true → ∃ post, hay = needle +:+ post.
Proof.
  revert hay. induction needle as [|a needle IH]; intros hay H.
  - by exists hay.
  - destruct hay as [|b hay]; [discriminate|]. cbn in H.
    destruct (Ascii.ascii_dec a b) as [->|]; [|discriminate].
    destruct (IH hay H) as [post ->]. by exists post.
Qed.

(** [Str.contains] decides the substring relation. *)
Lemma contains_occurs_in (needle hay : string) :
  Str.contains needle hay = true ↔ Str.occurs_in needle hay.
Proof.
  split.
  - induction hay as [|b hay IH]; cbn [Str.contains]; intros H.
    + rewrite orb_false_r in H. apply prefix_split in H as [post ->].
      by exists "", post.
    + apply orb_true_iff in H as [H|H].
      * apply prefix_split in H as [post ->]. by exists "", post.
      * destruct (IH H) as (pre & post & ->). by exists (String b pre), post.
  - intros (pre & post & ->). apply contains_app_r, contains_prefix.
Qed.

Lemma contains_refl (s : string) : Str.contains s s = true.
Proof.
  assert (Hp : String.prefix s s = true).
  { induction s as [|a s IH]; [reflexivity|]. cbn.
    destruct (Ascii.ascii_dec a a); [exact IH | congruence]. }
  destruct s; cbn [Str.contains]; rewrite Hp; reflexivity.
Qed.

Lemma SignOff_signoff_spec (w : World) :
  ∃ signoff, SignOff_signoff ext w = (Ok signoff, w).
Proof. eexists. unfold SignOff_signoff. run. reflexivity. Qed.

(** C10: [SignOff.do] appends the sign-off line unless the commit message
    already contains it; after one run it does, so a second run changes
    nothing. *)
Theorem SignOff_do_idempotent (self : SignOff) (w : World) :
  ∃ signoff w1,
    SignOff_signoff ext w = (Ok signoff, w) ∧
    SignOff_do ext self w = (Ok tt, w1) ∧
    SignOff_do ext self w1 = (Ok tt, w1) ∧
    if Str.contains signoff (Model.commitmsg (model w)) then w1 = w
    else Model.commitmsg (model w1)
         = Model.commitmsg (model w) +:+ Str.nl +:+ signoff.
Proof.
  destruct (SignOff_signoff_spec w) as [signoff Hs].
  exists signoff. unfold SignOff_do, SignOff_signoff in *. run.
  injection Hs as Hs. rewrite Hs.
  destruct (Str.contains signoff (Model.commitmsg (model w))) eqn:Hin.
  - exists w. rewrite Hs, Hin. repeat split.
  - eexists. split; [reflexivity|]. split; [reflexivity|]. cbn.
    rewrite Hs.
    rewrite (contains_app_r signoff (Model.commitmsg (model w))).
    + split; reflexivity.
    + apply contains_app_r, contains_refl.
Qed.

(** *** Undo after do *)

Lemma AmendMode_init_spec (a : bool) (w : World) :
  ∃ self,
    AmendMode_init ext a w = (Ok self, w) ∧
    am_amending self = a ∧
    am_old_commitmsg self = Model.commitmsg (model w) ∧
    undoable (am_base self) = true ∧
    old_diff_text (am_base self) = Model.diff_text (model w) ∧
    old_filename (am_base self) = Model.filename (model w) ∧
    old_head (am_base self) = Model.head (model w) ∧
    old_mode (am_base self) = Model.mode (model w).
Proof.
  destruct a.
  - eexists. unfold AmendMode_init, Command_init. run. repeat split.
  - unfold AmendMode_init, Command_init. run.
    destruct (undostack w) as [|o stack] eqn:Hstack.
    + eexists. repeat split.
    + rewrite <- Hstack.
      pose proof (AmendMode_search_walk (undostack w)
                    (Model.commitmsg (model w)) w (length (undostack w)) 0
                    ltac:(lia)) as Hwalk.
      rewrite Hwalk. eexists. repeat split.
Qed.

Lemma AmendMode_undo_after_do (self : AmendMode) (w : World) :
  ∃ self' w1 w2,
    AmendMode_do ext self w = (Ok self', w1) ∧
    AmendMode_undo ext self' w1 = (Ok tt, w2) ∧
    Model.directory (model w2) = Model.directory (model w) ∧
    (am_old_commitmsg self = Model.commitmsg (model w) →
     old_diff_text (am_base self) = Model.diff_text (model w) →
     old_filename (am_base self) = Model.filename (model w) →
     old_head (am_base self) = Model.head (model w) →
     old_mode (am_base self) = Model.mode (model w) →
     Model.snap (model w2) = Model.snap (model w)).
Proof.
  unfold AmendMode_do, AmendMode_undo, Command_do, Command_undo.
  destruct (am_amending self && path_exists ext (git_path ext "MERGE_HEAD")); run.
  - do 3 eexists. split; [reflexivity|]. split; [reflexivity|]. cbn.
    split; [reflexivity|]. intros; reflexivity.
  - do 3 eexists. split; [reflexivity|]. split; [reflexivity|]. cbn.
    split; [reflexivity|]. unfold Model.snap. cbn.
    intros -> -> -> -> ->. reflexivity.
Qed.

(** C1: for a command built for a request and undoable, [undo] right after
    [do] brings diff text, file name, mode, head, commit message and
    directory back to what they were before [do].  When [do] raises (a
    commit message file that cannot be loaded) the command object is the
    one [do] was called on. *)
Theorem undo_after_do_restores (fuel : nat) (r : Request) (w w0 w1 : World)
    (o : CmdObj) (res : result CmdObj) :
  construct ext r w = (Ok o, w0) →
  cmd_is_undoable o = true →
  cmd_do ext fuel o w0 = (res, w1) →
  ∃ w2,
    cmd_undo ext (match res with Ok o' => o' | Raise _ => o end) w1 = (Ok tt, w2) ∧
    Model.snap (model w2) = Model.snap (model w0).
Proof.
  intros Hc Hu Hdo.
  destruct r; cbn [construct] in Hc.
  - (* AmendMode *)
    destruct (AmendMode_init_spec amend0 w)
      as (self & Hinit & _ & Hmsg & _ & Hd & Hf & Hh & Hm).
    unfold fmap, M_fmap in Hc. rewrite Hinit in Hc. inversion Hc; subst o w0.
    destruct (AmendMode_undo_after_do self w)
      as (self' & w1' & w2 & Hdo' & Hundo & _ & Hsnap).
    cbn [cmd_do] in Hdo. unfold fmap, M_fmap in Hdo. rewrite Hdo' in Hdo.
    inversion Hdo; subst res w1.
    exists w2. split; [exact Hundo|]. auto.
  - revert Hc Hu. unfold ApplyPatches_init, Command_init. run.
    intros Hc; inversion Hc; subst. discriminate.
  - revert Hc Hu. unfold ResetMode_init, Command_init. run.
    intros Hc; inversion Hc; subst. discriminate.
  - revert Hc Hu. unfold Commit_init, ResetMode_init, Command_init. run.
    intros Hc; inversion Hc; subst. discriminate.
  - (* LoadCommitMessage *)
    revert Hc. unfold LoadCommitMessage_init, Command_init. run.
    intros Hc; inversion Hc; subst o w0. clear Hc Hu.
    revert Hdo. cbn [cmd_do]. unfold LoadCommitMessage_do. cbn.
    destruct (String.eqb path "" || negb (path_isfile ext path)); run.
    + intros Hdo; inversion Hdo; subst. eexists. split; reflexivity.
    + destruct (slurp ext path); run; intros Hdo; inversion Hdo; subst;
        eexists; split; reflexivity.
  - (* LoadCommitTemplate *)
    revert Hc. unfold LoadCommitTemplate_init, LoadCommitMessage_init, Command_init.
    run. intros Hc; inversion Hc; subst o w0. clear Hc Hu.
    revert Hdo. cbn [cmd_do]. unfold LoadCommitTemplate_do, LoadCommitMessage_do. cbn.
    destruct (config_get ext "commit.template") as [path|]; run.
    * destruct (String.eqb path "" || negb (path_isfile ext path)); run.
      -- intros Hdo; inversion Hdo; subst. eexists. split; reflexivity.
      -- destruct (slurp ext path); run; intros Hdo; inversion Hdo; subst;
           eexists; split; reflexivity.
    * intros Hdo; inversion Hdo; subst. eexists. split; reflexivity.
  - (* LoadPreviousMessage *)
    revert Hc. unfold LoadPreviousMessage_init, Command_init. run.
    intros Hc; inversion Hc; subst o w0. clear Hc Hu.
    revert Hdo. cbn [cmd_do]. unfold LoadPreviousMessage_do. run.
    intros Hdo; inversion Hdo; subst. eexists. split; reflexivity.
  - revert Hc Hu. unfold RunConfigAction_init, Command_init. run.
    intros Hc; inversion Hc; subst. discriminate.
  - (* SetDiffText *)
    revert Hc. unfold SetDiffText_init, Command_init. run.
    intros Hc; inversion Hc; subst o w0. clear Hc Hu.
    revert Hdo. cbn [cmd_do]. unfold Command_do. run.
    intros Hdo; inversion Hdo; subst. eexists. split; reflexivity.
  - revert Hc Hu. unfold ShowUntracked_init, Command_init. run.
    destruct filenames as [|f fs]; run; [|destruct (slurp ext f); run];
      intros Hc; inversion Hc; subst; discriminate.
  - (* SignOff *)
    revert Hc. unfold SignOff_init, Command_init. run.
    intros Hc; inversion Hc; subst o w0. clear Hc Hu.
    revert Hdo. cbn [cmd_do]. unfold SignOff_do, SignOff_signoff. run.
    destruct (Str.contains _ _); run;
      intros Hdo; inversion Hdo; subst; eexists; split; reflexivity.
  - revert Hc Hu. unfold Stage_init, PathsCommand_init, Command_init. run.
    intros Hc; inversion Hc; subst. discriminate.
  - revert Hc Hu. unfold Unstage_init, PathsCommand_init, Command_init. run.
    intros Hc; inversion Hc; subst. discriminate.
  - revert Hc Hu. unfold Command_init. run.
    intros Hc; inversion Hc; subst. discriminate.
  - revert Hc Hu. unfold Untrack_init, PathsCommand_init, Command_init. run.
    intros Hc; inversion Hc; subst. discriminate.
  - revert Hc Hu. unfold UntrackedSummary_init, Command_init. run.
    intros Hc; inversion Hc; subst. discriminate.
Qed.

(** *** Path commands *)

Lemma string_app_assoc (s t u : string) : (s +:+ t) +:+ u = s +:+ t +:+ u.
Proof.
  induction s as [|a s IH]; [reflexivity|].
  change (String a ((s +:+ t) +:+ u) = String a (s +:+ t +:+ u)). by rewrite IH.
Qed.

Lemma string_app_empty_r (s : string) : s +:+ "" = s.
Proof.
  induction s as [|a s IH]; [reflexivity|].
  change (String a (s +:+ "") = String a s). by rewrite IH.
Qed.

Lemma occurs_in_app_r (p pre s : string) :
  Str.occurs_in p s → Str.occurs_in p (pre +:+ s).
Proof.
  intros (a & b & ->). exists (pre +:+ a), b. by rewrite string_app_assoc.
Qed.

Lemma occurs_in_join (sep p : string) (paths : list string) :
  p ∈ paths → Str.occurs_in p (Str.join sep paths).
Proof.
  unfold Str.join.
  induction paths as [|x [|y rest] IH]; intros Hin.
  - by apply elem_of_nil in Hin.
  - apply list_elem_of_singleton in Hin as ->.
    exists "", "". cbn. by rewrite string_app_empty_r.
  - apply elem_of_cons in Hin as [->|Hin].
    + exists "", (sep +:+ String.concat sep (y :: rest)). reflexivity.
    + change (String.concat sep (x :: y :: rest))
        with (x +:+ sep +:+ String.concat sep (y :: rest)).
      by apply occurs_in_app_r, occurs_in_app_r, IH.
Qed.

Lemma logged_paths (label : string) (paths : list string) :
  Forall (λ p, Str.occurs_in p (label +:+ Str.join ", " paths)) paths.
Proof.
  apply Forall_forall. intros p Hin. by apply occurs_in_app_r, occurs_in_join.
Qed.

(** C5, for the commands that take paths: [Stage], [Unstage] and
    [Untrack] broadcast a [log_cmd] that names every path and then call
    the model's path operation; [UnstageAll] calls [unstage_all] and
    broadcasts nothing. *)
Theorem path_commands_log_before_mutation
    (self : PathsCommand) (unstage_all_cmd : Command) (w : World) :
  (fst (Stage_do ext self w) = Ok tt ∧
   logs_before_call (pc_paths self) (stage_paths (pc_paths self))
     (effects_of (Stage_do ext self) w)) ∧
  (fst (Unstage_do ext self w) = Ok tt ∧
   logs_before_call (pc_paths self) (unstage_paths (pc_paths self))
     (effects_of (Unstage_do ext self) w)) ∧
  (fst (Untrack_do ext self w) = Ok tt ∧
   logs_before_call (pc_paths self) (untrack_paths (pc_paths self))
     (effects_of (Untrack_do ext self) w)) ∧
  (fst (UnstageAll_do ext unstage_all_cmd w) = Ok tt ∧
   effects_of (UnstageAll_do ext unstage_all_cmd) w = [Call unstage_all]).
Proof.
  unfold effects_of, Stage_do, Unstage_do, Untrack_do, UnstageAll_do.
  repeat split.
  - run. rewrite <- !app_assoc, drop_app_length.
    exists [], 0%Z, ("Staging: " +:+ Str.join ", " (pc_paths self)), [], [].
    split; [reflexivity | apply logged_paths].
  - run. rewrite <- !app_assoc, drop_app_length.
    exists [], 0%Z, ("Unstaging: " +:+ Str.join ", " (pc_paths self)), [], [].
    split; [reflexivity | apply logged_paths].
  - run. by destruct (run_untrack _ _ _).
  - run. destruct (run_untrack _ _ _) as [status out]. cbn.
    rewrite <- !app_assoc, drop_app_length.
    exists [], 0%Z, ("Untracking: " +:+ Str.join ", " (pc_paths self)), [],
      [Broadcast (log_cmd status out)].
    split; [reflexivity | apply logged_paths].
  - run. by rewrite drop_app_length.
Qed.

(** *** RunConfigAction *)

Lemma opts_get_insert_ne (opts : gmap string OptValue) (k k' : string) (v : OptValue) :
  k ≠ k' → opts_get (<[k := v]> opts) k' = opts_get opts k'.
Proof. intros Hne. unfold opts_get. by rewrite lookup_insert_ne. Qed.

Lemma cleared_tool_variables (env : gmap string string) :
  Forall (λ v, delete "ARGS" (delete "REVISION" (delete "FILENAME" env)) !! v = None)
    tool_variables.
Proof.
  unfold tool_variables. repeat constructor.
  - rewrite !lookup_delete_ne by done. apply lookup_delete_eq.
  - rewrite lookup_delete_ne by done. apply lookup_delete_eq.
  - apply lookup_delete_eq.
Qed.

Lemma other_variables_kept (env : gmap string string) (v : string) :
  v ∉ tool_variables →
  delete "ARGS" (delete "REVISION" (delete "FILENAME" env)) !! v = env !! v.
Proof.
  unfold tool_variables. intros Hv.
  rewrite !lookup_delete_ne; [done|..]; intros <-; apply Hv; set_solver.
Qed.

(** C6, as the code has it: with [needsfile] set and no file selected,
    [do] returns [None] after a notice, runs no shell command and leaves
    the model alone; the three tool variables, which it removes at its
    start, are unset afterwards and every other variable is as before. *)
Theorem RunConfigAction_needsfile_without_selection
    (fuel : nat) (self : RunConfigAction) (w : World) :
  truthy (opts_get (get_guitool_opts ext (rca_name self)) "needsfile") = true →
  selection_filename ext = None ∨ selection_filename ext = Some "" →
  ∃ w',
    RunConfigAction_do ext fuel self w = (Ok (Returned None), w') ∧
    existsb runs_shell (effects_of (RunConfigAction_do ext fuel self) w) = false ∧
    model w' = model w ∧
    Forall (λ v, environ w' !! v = None) tool_variables ∧
    ∀ v, v ∉ tool_variables → environ w' !! v = environ w !! v.
Proof.
  intros Hneeds Hsel.
  unfold effects_of, RunConfigAction_do.
  set (opts0 := get_guitool_opts ext (rca_name self)) in *.
  set (opts1 := match opts0 !! "title" with
                | None => <["title" := opts_get opts0 "cmd"]> opts0
                | Some _ => opts0
                end).
  assert (H1 : opts_get opts1 "needsfile" = opts_get opts0 "needsfile").
  { subst opts1. destruct (opts0 !! "title"); [done|].
    by apply opts_get_insert_ne. }
  set (opts2 := if bool_decide (opts1 !! "prompt" = None)
                   || is_True (opts_get opts1 "prompt")
                then _ else opts1).
  assert (H2 : opts_get opts2 "needsfile" = opts_get opts0 "needsfile").
  { subst opts2. destruct (_ || _); [|done].
    rewrite opts_get_insert_ne by done. exact H1. }
  unfold_collab. unfold_M. cbv beta.
  rewrite H2, Hneeds.
  destruct Hsel as [-> | ->]; cbn [String.eqb fst snd trace with_trace
    with_environ environ model];
    (eexists; split; [reflexivity|]);
    cbn [snd trace with_trace with_environ environ model];
    rewrite drop_app_length;
    (split; [reflexivity|]); (split; [reflexivity|]);
    (split; [apply cleared_tool_variables | apply other_variables_kept]).
Qed.

End Properties.

(** ** The claims on the sample session *)

Lemma undo_after_do_restores_witness :
  ∃ (o : CmdObj) (res : result CmdObj) (w1 w2 : World),
    construct (sample_ext true false) (amend_mode true) sample_world
      = (Ok o, sample_world) ∧
    cmd_is_undoable o = true ∧
    cmd_do (sample_ext true false) 0 o sample_world = (res, w1) ∧
    cmd_undo (sample_ext true false)
      (match res with Ok o' => o' | Raise _ => o end) w1 = (Ok tt, w2) ∧
    Model.snap (model w2) = Model.snap (model sample_world).
Proof.
  destruct (undo_after_do_restores (sample_ext true false) 0 (amend_mode true)
              sample_world sample_world _ _ _ eq_refl eq_refl eq_refl)
    as [w2 [Hundo Hsnap]].
  eexists _, _, _, w2.
  split; [reflexivity|]. split; [reflexivity|]. split; [reflexivity|].
  split; [exact Hundo | exact Hsnap].
Defined.

Lemma AmendMode_refused_while_merging_witness :
  am_amending sample_amend = true ∧
  path_exists (sample_ext true true) (git_path (sample_ext true true) "MERGE_HEAD") = true ∧
  ∃ self' w',
    AmendMode_do (sample_ext true true) sample_amend sample_world = (Ok self', w') ∧
    model w' = model sample_world ∧
    am_skip self' = true ∧
    ∀ w2 : World, AmendMode_undo (sample_ext true true) self' w2 = (Ok tt, w2).
Proof.
  split; [reflexivity|]. split; [reflexivity|].
  apply (AmendMode_refused_while_merging (sample_ext true true) sample_amend
           sample_world); reflexivity.
Defined.

(** The patches of the design's example are applied in sorted order. *)
Example ApplyPatches_sorts_two_patches :
  ∃ self,
    ApplyPatches_init ["/tmp/0002.patch"; "/tmp/0001.patch"] sample_world
      = (Ok self, sample_world) ∧
    am_calls (effects_of (ApplyPatches_do (sample_ext true false) self) sample_world)
      = ["/tmp/0001.patch"; "/tmp/0002.patch"].
Proof. eexists. split; reflexivity. Qed.

(** [UnstageAll.do] only calls [unstage_all]: no [log_cmd] comes before the
    call. *)
Lemma UnstageAll_broadcasts_nothing :
  effects_of (UnstageAll_do (sample_ext true false) sample_command) sample_world
    = [Call unstage_all] ∧
  ¬ logs_before_call [] unstage_all
      (effects_of (UnstageAll_do (sample_ext true false) sample_command) sample_world).
Proof.
  assert (Heff : effects_of (UnstageAll_do (sample_ext true false) sample_command)
                   sample_world = [Call unstage_all]) by reflexivity.
  split; [exact Heff|]. rewrite Heff.
  intros (before & status & msg & between & after & Heq & _).
  destruct before as [|e [|e' before]]; discriminate Heq.
Qed.

Lemma RunConfigAction_needsfile_without_selection_witness :
  truthy (opts_get (get_guitool_opts (sample_ext true false) (rca_name sample_tool))
            "needsfile") = true ∧
  selection_filename (sample_ext true false) = None ∧
  ∃ w',
    RunConfigAction_do (sample_ext true false) 0 sample_tool sample_world
      = (Ok (Returned None), w') ∧
    existsb runs_shell
      (effects_of (RunConfigAction_do (sample_ext true false) 0 sample_tool)
         sample_world) = false ∧
    model w' = model sample_world ∧
    Forall (λ v, environ w' !! v = None) tool_variables ∧
    ∀ v, v ∉ tool_variables → environ w' !! v = environ sample_world !! v.
Proof.
  split; [reflexivity|]. split; [reflexivity|].
  apply (RunConfigAction_needsfile_without_selection (sample_ext true false) 0
           sample_tool sample_world); [reflexivity | left; reflexivity].
Defined.

(** In an environment that has [FILENAME], [do] removes the variable before
    it looks at [needsfile]: the tool variables are not kept. *)
Lemma RunConfigAction_clears_FILENAME :
  truthy (opts_get (get_guitool_opts (sample_ext true false) (rca_name sample_tool))
            "needsfile") = true ∧
  selection_filename (sample_ext true false) = None ∧
  ∃ w',
    RunConfigAction_do (sample_ext true false) 0 sample_tool sample_world
      = (Ok (Returned None), w') ∧
    environ sample_world !! "FILENAME" = Some "old.py" ∧
    environ w' !! "FILENAME" = None ∧
    ¬ keeps_tool_variables sample_world w'.
Proof.
  split; [reflexivity|]. split; [reflexivity|].
  eexists. split; [vm_compute; reflexivity|].
  split; [reflexivity|]. split; [reflexivity|].
  intros Hkeeps. apply Forall_cons_1 in Hkeeps as [Hfile _].
  vm_compute in Hfile. discriminate Hfile.
Qed.

(** One untracked path: the singular header and the rule line. *)
Example UntrackedSummary_one_path :
  Str.lines (UntrackedSummary_text ["a.txt"])
    = ["# 1 untracked file"; "# possible .gitignore rule:"; "/a.txt"].
Proof. reflexivity. Qed.

(** C8 on two paths: the header is plural, but the two rules are written
    without a line break between them, so neither is a line of the text. *)
Theorem UntrackedSummary_two_paths_share_a_line :
  ∃ self,
    UntrackedSummary_init sample_world = (Ok self, sample_world) ∧
    Model.untracked (model sample_world) = ["a.txt"; "b.txt"] ∧
    Str.lines (new_diff_text self)
      = ["# 2 untracked files"; "# possible .gitignore rules:"; "/a.txt/b.txt"] ∧
    bool_decide ("/a.txt" ∈ Str.lines (new_diff_text self)) = false ∧
    bool_decide ("/b.txt" ∈ Str.lines (new_diff_text self)) = false.
Proof. eexists. repeat split. Qed.


(** ** Further properties of the commands *)

Section MoreProperties.

Context (ext : Ext).

(** X1: Constructing a command reads the state and never changes it or raises;
    the object is undoable exactly for the six requests whose class sets
    [undoable]. *)
Theorem construct_reads_only (r : Request) (w : World) :
  ∃ o,
    construct ext r w = (Ok o, w) ∧
    cmd_is_undoable o = request_undoable r.
Proof.
  destruct r; cbn [construct request_undoable].
  - destruct (AmendMode_init_spec ext amend0 w) as (self & Hinit & _ & _ & Hu & _).
    exists (ObjAmendMode self). unfold fmap, M_fmap. rewrite Hinit.
    split; [reflexivity | exact Hu].
  - destruct (ApplyPatches_init_spec patches w) as (self & Hinit & _).
    exists (ObjApplyPatches self). unfold fmap, M_fmap. rewrite Hinit.
    split; [reflexivity|].
    revert Hinit. unfold ApplyPatches_init, Command_init. run.
    intros Hinit; inversion Hinit; reflexivity.
  - eexists. unfold ResetMode_init, Command_init. run. split; reflexivity.
  - eexists. unfold Commit_init, ResetMode_init, Command_init. run. split; reflexivity.
  - eexists. unfold LoadCommitMessage_init, Command_init. run. split; reflexivity.
  - eexists. unfold LoadCommitTemplate_init, LoadCommitMessage_init, Command_init.
    run. split; reflexivity.
  - eexists. unfold LoadPreviousMessage_init, Command_init. run. split; reflexivity.
  - eexists. unfold RunConfigAction_init, Command_init. run. split; reflexivity.
  - eexists. unfold SetDiffText_init, Command_init. run. split; reflexivity.
  - unfold ShowUntracked_init, Command_init. run.
    destruct filenames as [|f fs]; run; [|destruct (slurp ext f); run];
      eexists; split; reflexivity.
  - eexists. unfold SignOff_init, Command_init. run. split; reflexivity.
  - eexists. unfold Stage_init, PathsCommand_init, Command_init. run. split; reflexivity.
  - eexists. unfold Unstage_init, PathsCommand_init, Command_init. run. split; reflexivity.
  - eexists. unfold Command_init. run. split; reflexivity.
  - eexists. unfold Untrack_init, PathsCommand_init, Command_init. run. split; reflexivity.
  - eexists. unfold UntrackedSummary_init, Command_init. run. split; reflexivity.
Qed.

(** *** AmendMode *)

Lemma AmendMode_init_enter_spec (w : World) :
  ∃ self,
    AmendMode_init ext true w = (Ok self, w) ∧
    am_amending self = true ∧
    am_new_commitmsg self = prev_commitmsg ext None ∧
    new_mode (am_base self) = mode_amend ∧
    new_head (am_base self) = "HEAD^" ∧
    new_diff_text (am_base self) = Model.diff_text (model w) ∧
    new_filename (am_base self) = Model.filename (model w).
Proof. eexists. unfold AmendMode_init, Command_init. run. repeat split. Qed.

(** X2: Outside a merge, entering amend mode sets mode, head and the commit
    message of the previous commit, keeps diff text, file name and directory,
    announces the mode and rescans the file status. *)
Theorem AmendMode_enters_amend_mode (w : World) :
  path_exists ext (git_path ext "MERGE_HEAD") = false →
  ∃ self self' w',
    AmendMode_init ext true w = (Ok self, w) ∧
    AmendMode_do ext self w = (Ok self', w') ∧
    am_skip self' = false ∧
    Model.mode (model w') = mode_amend ∧
    Model.head (model w') = "HEAD^" ∧
    Model.commitmsg (model w') = prev_commitmsg ext None ∧
    Model.diff_text (model w') = Model.diff_text (model w) ∧
    Model.filename (model w') = Model.filename (model w) ∧
    Model.directory (model w') = Model.directory (model w) ∧
    effects_of (AmendMode_do ext self) w
      = [Broadcast (amend true); Call update_file_status].
Proof.
  intros Hmerge.
  destruct (AmendMode_init_enter_spec w)
    as (self & Hinit & Ham & Hmsg & Hmode & Hhead & Hdiff & Hfile).
  exists self, (with_skip false self), (snd (AmendMode_do ext self w)).
  split; [exact Hinit|].
  unfold effects_of, AmendMode_do, Command_do. rewrite Ham, Hmerge. run.
  split; [reflexivity|].
  rewrite <- !app_assoc, drop_app_length.
  rewrite Hmsg, Hmode, Hhead, Hdiff, Hfile, Ham. repeat split.
Qed.

Lemma walk_skips_non_entering (recent older : list CmdObj) (live : string) :
  Forall (λ o, is_amend_entering o = false) recent →
  walk_recent_first (recent ++ older) live = walk_recent_first older live.
Proof.
  induction 1 as [|o recent Ho _ IH]; [reflexivity|].
  cbn. destruct o; try exact IH. cbn in Ho. rewrite Ho. exact IH.
Qed.

Lemma AmendMode_init_leave_spec (w : World) :
  ∃ self,
    AmendMode_init ext false w = (Ok self, w) ∧
    am_amending self = false ∧
    am_new_commitmsg self
      = recovered_commitmsg (undostack w) (Model.commitmsg (model w)) ∧
    new_mode (am_base self) = mode_none ∧
    new_head (am_base self) = "HEAD" ∧
    new_diff_text (am_base self) = "" ∧
    new_filename (am_base self) = Model.filename (model w).
Proof.
  unfold AmendMode_init, Command_init, recovered_commitmsg. run.
  destruct (undostack w) as [|o stack] eqn:Hstack.
  - eexists. repeat split.
  - rewrite <- Hstack.
    pose proof (AmendMode_search_walk (undostack w)
                  (Model.commitmsg (model w)) w (length (undostack w)) 0
                  ltac:(lia)) as Hwalk.
    rewrite firstn_all in Hwalk. rewrite Hwalk. eexists. repeat split.
Qed.

(** X3: Leaving amend mode gives back the commit message that was live when
    amend mode was last entered, whatever the message has become since and
    whatever other commands were run in between, and resets mode, head and
    diff text. *)
Theorem AmendMode_leave_restores_entry_message
    (enter : AmendMode) (older later : list CmdObj) (w : World) :
  am_amending enter = true →
  undostack w = older ++ ObjAmendMode enter :: later →
  Forall (λ o, is_amend_entering o = false) later →
  ∃ self self' w',
    AmendMode_init ext false w = (Ok self, w) ∧
    AmendMode_do ext self w = (Ok self', w') ∧
    Model.commitmsg (model w') = am_old_commitmsg enter ∧
    Model.mode (model w') = mode_none ∧
    Model.head (model w') = "HEAD" ∧
    Model.diff_text (model w') = "" ∧
    Model.filename (model w') = Model.filename (model w).
Proof.
  intros Henter Hstack Hlater.
  destruct (AmendMode_init_leave_spec w)
    as (self & Hinit & Ham & Hmsg & Hmode & Hhead & Hdiff & Hfile).
  exists self, (with_skip false self), (snd (AmendMode_do ext self w)).
  split; [exact Hinit|].
  assert (Hrec : am_new_commitmsg self = am_old_commitmsg enter).
  { rewrite Hmsg, Hstack. unfold recovered_commitmsg.
    rewrite rev_app_distr. cbn [rev]. rewrite <- app_assoc.
    rewrite walk_skips_non_entering.
    - cbn. by rewrite Henter.
    - apply List.Forall_rev, Hlater. }
  unfold AmendMode_do, Command_do. rewrite Ham. cbn [andb]. run.
  rewrite Hrec, Hmode, Hhead, Hdiff, Hfile. repeat split.
Qed.

(** *** ResetMode *)

Lemma ResetMode_init_spec (w : World) :
  ∃ self,
    ResetMode_init w = (Ok self, w) ∧
    new_mode self = mode_none ∧
    new_head self = "HEAD" ∧
    new_diff_text self = "" ∧
    new_filename self = Model.filename (model w).
Proof. eexists. unfold ResetMode_init, Command_init. run. repeat split. Qed.

(** X4: [ResetMode.do] leaves the model in the clean state (mode none, head
    [HEAD], empty diff text) with the file name the model had when the
    command was built, keeps the commit message and rescans the file status
    without broadcasting. *)
Theorem ResetMode_do_cleans (w0 w : World) :
  ∃ self w',
    ResetMode_init w0 = (Ok self, w0) ∧
    ResetMode_do ext self w = (Ok tt, w') ∧
    Model.mode (model w') = mode_none ∧
    Model.head (model w') = "HEAD" ∧
    Model.diff_text (model w') = "" ∧
    Model.filename (model w') = Model.filename (model w0) ∧
    Model.commitmsg (model w') = Model.commitmsg (model w) ∧
    effects_of (ResetMode_do ext self) w = [Call update_file_status].
Proof.
  destruct (ResetMode_init_spec w0) as (self & Hinit & Hmode & Hhead & Hdiff & Hfile).
  exists self, (snd (ResetMode_do ext self w)).
  split; [exact Hinit|].
  unfold effects_of, ResetMode_do, Command_do. run.
  split; [reflexivity|]. rewrite drop_app_length.
  rewrite Hmode, Hhead, Hdiff, Hfile. repeat split.
Qed.

(** *** Commit message loaders *)

(** X5: Without a path, with an empty path or with a path that is no file,
    [LoadCommitMessage.do] raises the usage error and changes nothing. *)
Theorem LoadCommitMessage_do_missing_file (self : LoadCommitMessage) (w : World) :
  (∀ path, lcm_path self = Some path → path = "" ∨ path_isfile ext path = false) →
  LoadCommitMessage_do ext self w = (Raise (cannot_find_template (lcm_path self)), w).
Proof.
  intros Hpath. unfold LoadCommitMessage_do.
  destruct (lcm_path self) as [path|]; [|reflexivity].
  destruct (Hpath path eq_refl) as [-> | Hfile]; [reflexivity|].
  rewrite Hfile, orb_true_r. reflexivity.
Qed.

(** X6: On a readable file [LoadCommitMessage.do] sets the directory to the
    file's directory and the commit message to its content; diff text, file
    name, mode and head stay and nothing is broadcast. *)
Theorem LoadCommitMessage_do_loads
    (self : LoadCommitMessage) (path content : string) (w : World) :
  lcm_path self = Some path →
  path ≠ "" →
  path_isfile ext path = true →
  slurp ext path = Some content →
  ∃ w',
    LoadCommitMessage_do ext self w = (Ok tt, w') ∧
    Model.directory (model w') = dirname ext path ∧
    Model.commitmsg (model w') = content ∧
    Model.diff_text (model w') = Model.diff_text (model w) ∧
    Model.filename (model w') = Model.filename (model w) ∧
    Model.mode (model w') = Model.mode (model w) ∧
    Model.head (model w') = Model.head (model w) ∧
    trace w' = trace w.
Proof.
  intros Hpath Hne Hfile Hread. unfold LoadCommitMessage_do.
  rewrite Hpath, Hfile. apply String.eqb_neq in Hne. rewrite Hne. run.
  rewrite Hread. run. eexists. repeat split.
Qed.

(** X7: When the file exists but cannot be read, [LoadCommitMessage.do] raises
    after it has already moved the model's directory; the commit message is
    untouched. *)
Theorem LoadCommitMessage_do_unreadable
    (self : LoadCommitMessage) (path : string) (w : World) :
  lcm_path self = Some path →
  path ≠ "" →
  path_isfile ext path = true →
  slurp ext path = None →
  ∃ w',
    LoadCommitMessage_do ext self w = (Raise (IOError path), w') ∧
    Model.directory (model w') = dirname ext path ∧
    Model.commitmsg (model w') = Model.commitmsg (model w).
Proof.
  intros Hpath Hne Hfile Hread. unfold LoadCommitMessage_do.
  rewrite Hpath, Hfile. apply String.eqb_neq in Hne. rewrite Hne. run.
  rewrite Hread. run. eexists. repeat split.
Qed.

(** X8: Without a configured [commit.template], the template command is built
    but its [do] raises the usage error about the configuration and changes
    nothing. *)
Theorem LoadCommitTemplate_unconfigured (w : World) :
  config_get ext "commit.template" = None →
  ∃ self title msg,
    LoadCommitTemplate_init ext w = (Ok self, w) ∧
    LoadCommitTemplate_do ext self w = (Raise (UsageError title msg), w) ∧
    title = "Error: unconfigured commit template".
Proof.
  intros Hcfg. unfold LoadCommitTemplate_init, LoadCommitMessage_init, Command_init.
  run. rewrite Hcfg. do 3 eexists. split; [reflexivity|].
  unfold LoadCommitTemplate_do. cbn. split; reflexivity.
Qed.

(** *** Untrack and UntrackedSummary *)

(** X9: [Untrack.do] makes three effects: the announcement, the call, and a
    second [log_cmd] with the status and output of the call. *)
Theorem Untrack_do_reports_outcome (self : PathsCommand) (w : World) :
  ∃ status out,
    effects_of (Untrack_do ext self) w
      = [Broadcast (log_cmd 0 ("Untracking: " +:+ Str.join ", " (pc_paths self)));
         Call (untrack_paths (pc_paths self));
         Broadcast (log_cmd status out)] ∧
    (status, out)
      = run_untrack ext
          (trace w ++ [Broadcast (log_cmd 0 ("Untracking: "
                                             +:+ Str.join ", " (pc_paths self)))])
          (pc_paths self).
Proof.
  unfold effects_of, Untrack_do. run.
  destruct (run_untrack _ _ _) as [status out]. cbn.
  rewrite <- !app_assoc, drop_app_length. exists status, out. split; reflexivity.
Qed.

Lemma concat_empty_cons (x : string) (l : list string) :
  String.concat "" (x :: l) = x +:+ String.concat "" l.
Proof. destruct l; cbn; [by rewrite string_app_empty_r | reflexivity]. Qed.

Lemma UntrackedSummary_rules_fold (untracked : list string) (io : string) :
  fold_left (λ io u, io +:+ "/" +:+ u) untracked io
    = io +:+ untracked_rules untracked.
Proof.
  unfold untracked_rules. revert io.
  induction untracked as [|u rest IH]; intros io.
  - cbn. by rewrite string_app_empty_r.
  - cbn [fold_left map]. rewrite IH, concat_empty_cons.
    by rewrite !string_app_assoc.
Qed.

(** X10: The text of [UntrackedSummary] is the count line, then, unless no path
    is untracked, the rule header and every path with a slash before it,
    the rules following each other without separator. *)
Theorem UntrackedSummary_text_shape (untracked : list string) :
  let suffix := if (1 <? length untracked)%nat then "s" else "" in
  let count_line :=
    "# " +:+ pretty (length untracked) +:+ " untracked file" +:+ suffix +:+ Str.nl in
  UntrackedSummary_text untracked =
    match untracked with
    | [] => count_line
    | _ => count_line +:+ "# possible .gitignore rule" +:+ suffix +:+ ":" +:+ Str.nl
             +:+ untracked_rules untracked
    end ∧
  Forall (λ u, Str.occurs_in ("/" +:+ u) (UntrackedSummary_text untracked)) untracked.
Proof.
  cbv zeta.
  assert (Htext : UntrackedSummary_text untracked =
    match untracked with
    | [] => "# " +:+ pretty (length untracked) +:+ " untracked file"
              +:+ (if (1 <? length untracked)%nat then "s" else "") +:+ Str.nl
    | _ => ("# " +:+ pretty (length untracked) +:+ " untracked file"
              +:+ (if (1 <? length untracked)%nat then "s" else "") +:+ Str.nl)
             +:+ "# possible .gitignore rule"
             +:+ (if (1 <? length untracked)%nat then "s" else "") +:+ ":" +:+ Str.nl
             +:+ untracked_rules untracked
    end).
  { unfold UntrackedSummary_text. destruct untracked as [|u rest]; [reflexivity|].
    rewrite UntrackedSummary_rules_fold. by rewrite !string_app_assoc. }
  split; [exact Htext|].
  rewrite Htext. apply Forall_forall. intros u Hu.
  destruct untracked as [|u0 rest]; [by apply elem_of_nil in Hu|].
  do 5 apply occurs_in_app_r.
  apply (occurs_in_join "" ("/" +:+ u) (map (λ u, "/" +:+ u) (u0 :: rest))).
  apply list_elem_of_fmap. by exists u.
Qed.

(** *** ApplyPatches *)






(** *** RunConfigAction *)

Lemma RunConfigAction_do_unfold (fuel : nat) (self : RunConfigAction) :
  RunConfigAction_do ext fuel self =
    (update_environ (delete "FILENAME");;
     update_environ (delete "REVISION");;
     update_environ (delete "ARGS");;
     let opts := RunConfigAction_opts ext self in
     let cmd := RunConfigAction_cmd ext self in
     if truthy (opts_get opts "needsfile") then
       match selection_filename ext with
       | Some filename =>
           if String.eqb filename "" then
             prompt_information "Please select a file"
               (Str.dq +:+ format_value cmd +:+ Str.dq +:+ " requires a selected file");;
             mret (Returned None)
           else
             update_environ (<["FILENAME" := filename]>);;
             RunConfigAction_prompts ext fuel self cmd opts
       | None =>
           prompt_information "Please select a file"
             (Str.dq +:+ format_value cmd +:+ Str.dq +:+ " requires a selected file");;
           mret (Returned None)
       end
     else RunConfigAction_prompts ext fuel self cmd opts).
Proof. reflexivity. Qed.

(** Filling in the defaults touches only [title] and [prompt]. *)
Lemma RunConfigAction_opts_flag (self : RunConfigAction) (key : string) :
  key ≠ "title" → key ≠ "prompt" →
  opts_get (RunConfigAction_opts ext self) key
    = opts_get (get_guitool_opts ext (rca_name self)) key.
Proof.
  intros Ht Hp. unfold RunConfigAction_opts. cbv zeta.
  set (opts0 := get_guitool_opts ext (rca_name self)).
  assert (H1 : opts_get (match opts0 !! "title" with
                         | None => <["title" := opts_get opts0 "cmd"]> opts0
                         | Some _ => opts0
                         end) key = opts_get opts0 key).
  { destruct (opts0 !! "title"); [done|]. by apply opts_get_insert_ne. }
  destruct (_ || _); [|exact H1].
  rewrite opts_get_insert_ne by done. exact H1.
Qed.

(** X13: The dialog accepts only a revision that is not empty when the options
    ask for one; the revision and arguments are those of the options the
    user left. *)
Theorem RunConfigAction_dialog_accepts_revision
    (fuel : nat) (cmd : OptValue) (opts opts' : gmap string OptValue)
    (rev args : OptValue) (w w' : World) :
  RunConfigAction_dialog ext fuel cmd opts w = (Ok (Accepted opts' rev args), w') →
  rev = opts_get opts' "revision" ∧
  args = opts_get opts' "args" ∧
  (truthy (opts_get opts' "revprompt") = true → truthy rev = true).
Proof.
  revert opts w. induction fuel as [|fuel IH]; intros opts w Hrun.
  - discriminate Hrun.
  - cbn [RunConfigAction_dialog] in Hrun.
    unfold prompt_run_config_action, prompt_critical in Hrun. unfold_M.
    cbv beta iota in Hrun. cbn [fst snd] in Hrun.
    destruct (answer_run_config_action ext (trace w) (format_value cmd) opts)
      as [ok opts1].
    destruct ok; cbn [negb] in Hrun; [|discriminate Hrun].
    destruct (truthy (opts_get opts1 "revprompt")) eqn:Hprompt;
      cbn [andb] in Hrun.
    + destruct (truthy (opts_get opts1 "revision")) eqn:Hrev; cbn [negb] in Hrun.
      * inversion Hrun; subst. repeat split. intros _. exact Hrev.
      * eapply IH. exact Hrun.
    + inversion Hrun; subst. repeat split. intros Habs. congruence.
Qed.

(** X14: When the user cancels the revision dialog at once, [do] returns [None]:
    no shell command runs, the model is as before and the tool variables
    stay removed. *)
Theorem RunConfigAction_dialog_cancelled
    (fuel : nat) (self : RunConfigAction) (w : World) :
  truthy (opts_get (get_guitool_opts ext (rca_name self)) "needsfile") = false →
  truthy (opts_get (get_guitool_opts ext (rca_name self)) "revprompt")
    || truthy (opts_get (get_guitool_opts ext (rca_name self)) "argprompt") = true →
  fst (answer_run_config_action ext (trace w)
         (format_value (RunConfigAction_cmd ext self))
         (RunConfigAction_opts ext self)) = false →
  ∃ w',
    RunConfigAction_do ext (S fuel) self w = (Ok (Returned None), w') ∧
    existsb runs_shell (effects_of (RunConfigAction_do ext (S fuel) self) w) = false ∧
    model w' = model w ∧
    environ w' = cleared (environ w).
Proof.
  intros Hneeds Hprompt Hanswer.
  unfold effects_of. rewrite RunConfigAction_do_unfold. cbv zeta.
  unfold RunConfigAction_prompts. cbn [RunConfigAction_dialog].
  rewrite !RunConfigAction_opts_flag by done.
  unfold prompt_run_config_action. unfold_M. cbv beta.
  rewrite Hneeds, Hprompt.
  cbn [fst snd trace with_trace with_environ environ model].
  destruct (answer_run_config_action _ _ _ _) as [ok opts1].
  cbn [fst] in Hanswer. subst ok.
  cbn [negb fst snd trace with_trace with_environ environ model].
  eexists. split; [reflexivity|].
  rewrite drop_app_length. repeat split.
Qed.

(** X15: When the tool asks for confirmation and the user declines, [do]
    returns [None] after the question: no shell command runs and the model
    is as before. *)
Theorem RunConfigAction_confirmation_declined
    (fuel : nat) (self : RunConfigAction) (title prompt : string) (w : World) :
  truthy (opts_get (get_guitool_opts ext (rca_name self)) "needsfile") = false →
  truthy (opts_get (get_guitool_opts ext (rca_name self)) "revprompt") = false →
  truthy (opts_get (get_guitool_opts ext (rca_name self)) "argprompt") = false →
  truthy (opts_get (get_guitool_opts ext (rca_name self)) "confirm") = true →
  opts_get (RunConfigAction_opts ext self) "title" = VStr title →
  opts_get (RunConfigAction_opts ext self) "prompt" = VStr prompt →
  answer_question ext (trace w)
    (expandvars ext (cleared (environ w)) title)
    (expandvars ext (cleared (environ w)) prompt) = false →
  ∃ w',
    RunConfigAction_do ext fuel self w = (Ok (Returned None), w') ∧
    effects_of (RunConfigAction_do ext fuel self) w
      = [PromptUser (question (expandvars ext (cleared (environ w)) title)
                              (expandvars ext (cleared (environ w)) prompt))] ∧
    model w' = model w ∧
    environ w' = cleared (environ w).
Proof.
  intros Hneeds Hrev Harg Hconfirm Htitle Hprompt Hanswer.
  unfold effects_of. rewrite RunConfigAction_do_unfold. cbv zeta.
  unfold RunConfigAction_prompts.
  rewrite !RunConfigAction_opts_flag by done.
  rewrite Htitle, Hprompt.
  unfold prompt_question, as_str. unfold_M. cbv beta.
  rewrite Hneeds, Hrev, Harg, Hconfirm.
  cbn [orb fst snd trace with_trace with_environ environ model].
  fold (cleared (environ w)). rewrite Hanswer.
  cbn [negb fst snd trace with_trace with_environ environ model].
  eexists. split; [reflexivity|].
  rewrite drop_app_length. repeat split.
Qed.

(** X16: A tool without file requirement, dialog or confirmation is run at once:
    [do] announces the expanded command, runs [sh -c] on the command (in the
    console dialog unless [noconsole] is set), logs output and status,
    rescans unless [norescan] is set, and returns the exit status. *)
Theorem RunConfigAction_runs_plain_tool
    (fuel : nat) (self : RunConfigAction) (cmd : string) (w : World) :
  RunConfigAction_cmd ext self = VStr cmd →
  truthy (opts_get (get_guitool_opts ext (rca_name self)) "needsfile") = false →
  truthy (opts_get (get_guitool_opts ext (rca_name self)) "revprompt") = false →
  truthy (opts_get (get_guitool_opts ext (rca_name self)) "argprompt") = false →
  truthy (opts_get (get_guitool_opts ext (rca_name self)) "confirm") = false →
  let noconsole := truthy (opts_get (get_guitool_opts ext (rca_name self)) "noconsole") in
  let norescan := truthy (opts_get (get_guitool_opts ext (rca_name self)) "norescan") in
  let title := expandvars ext (cleared (environ w)) cmd in
  let argv := ["sh"; "-c"; cmd] in
  let announced := trace w ++ [Broadcast (log_cmd 0 ("running: " +:+ title))] in
  let '(status, out, err) :=
    if noconsole then shell_run ext announced argv
    else answer_run_command ext announced title argv in
  ∃ w',
    RunConfigAction_do ext fuel self w = (Ok (Returned (Some status)), w') ∧
    effects_of (RunConfigAction_do ext fuel self) w
      = [Broadcast (log_cmd 0 ("running: " +:+ title));
         (if noconsole then Shell argv else PromptUser (run_command title argv));
         Broadcast (log_cmd status
                      ("stdout: " +:+ Str.rstrip out +:+ Str.nl +:+
                       "status: " +:+ pretty status +:+ Str.nl +:+
                       "stderr: " +:+ Str.rstrip err))]
        ++ (if norescan then [] else [Call update_status]) ∧
    environ w' = cleared (environ w).
Proof.
  intros Hcmd Hneeds Hrev Harg Hconfirm. cbv zeta.
  unfold effects_of. rewrite RunConfigAction_do_unfold. cbv zeta.
  unfold RunConfigAction_prompts, RunConfigAction_run.
  rewrite !RunConfigAction_opts_flag by done.
  rewrite Hcmd.
  unfold prompt_run_command, utils_run_command, model_update_status, rescan_after,
    as_str.
  unfold_M. cbv beta.
  rewrite Hneeds, Hrev, Harg, Hconfirm.
  cbn [orb truthy fst snd trace with_trace with_environ environ model].
  fold (cleared (environ w)).
  destruct (truthy (opts_get (get_guitool_opts ext (rca_name self)) "noconsole"));
    cbn [fst snd trace with_trace with_environ environ model].
  - destruct (shell_run _ _ _) as [[status out] err].
    destruct (truthy (opts_get (get_guitool_opts ext (rca_name self)) "norescan"));
      cbn [negb fst snd trace with_trace with_environ with_model environ model];
      (eexists; split; [reflexivity|]);
      cbn [snd trace with_trace with_environ with_model environ model];
      rewrite <- !app_assoc, drop_app_length; split; reflexivity.
  - destruct (answer_run_command _ _ _ _) as [[status out] err].
    destruct (truthy (opts_get (get_guitool_opts ext (rca_name self)) "norescan"));
      cbn [negb fst snd trace with_trace with_environ with_model environ model];
      (eexists; split; [reflexivity|]);
      cbn [snd trace with_trace with_environ with_model environ model];
      rewrite <- !app_assoc, drop_app_length; split; reflexivity.
Qed.

Lemma RunConfigAction_dialog_environ
    (fuel : nat) (cmd : OptValue) (opts : gmap string OptValue) (w : World) :
  environ (snd (RunConfigAction_dialog ext fuel cmd opts w)) = environ w.
Proof.
  revert opts w. induction fuel as [|fuel IH]; intros opts w; [reflexivity|].
  cbn [RunConfigAction_dialog].
  unfold prompt_run_config_action, prompt_critical. unfold_M. cbv beta.
  cbn [fst snd trace with_trace environ].
  destruct (answer_run_config_action _ _ _ _) as [ok opts1].
  destruct ok; cbn [negb]; [|reflexivity].
  destruct (truthy (opts_get opts1 "revprompt") && negb (truthy (opts_get opts1 "revision")));
    [|reflexivity].
  cbn [fst snd trace with_trace environ]. rewrite IH. reflexivity.
Qed.

Lemma RunConfigAction_run_FILENAME
    (self : RunConfigAction) (cmd : OptValue) (opts : gmap string OptValue)
    (rev args : OptValue) (w : World) :
  environ (snd (RunConfigAction_run ext self cmd opts rev args w)) !! "FILENAME"
    = environ w !! "FILENAME".
Proof.
  unfold RunConfigAction_run, prompt_run_command, utils_run_command,
    model_update_status, rescan_after, as_str.
  unfold_M. cbv beta.
  destruct (truthy rev), rev as [|b|r], (truthy args), args as [|b'|a], cmd as [|b''|c];
    cbn [fst snd trace with_trace with_environ with_model environ model];
    try reflexivity;
    repeat match goal with
      | |- context [if ?b then _ else _] => destruct b
      | |- context [let '(_, _) := ?p in _] => destruct p as [[? ?] ?]
      end;
    cbn [negb fst snd trace with_trace with_environ with_model environ model];
    rewrite ?lookup_insert_ne by done; reflexivity.
Qed.

(** X17: With [needsfile] set and a file selected, the environment [do] leaves
    has [FILENAME] set to the selected file, however the run ends. *)
Theorem RunConfigAction_exports_selected_file
    (fuel : nat) (self : RunConfigAction) (filename : string) (w : World) :
  truthy (opts_get (get_guitool_opts ext (rca_name self)) "needsfile") = true →
  selection_filename ext = Some filename →
  filename ≠ "" →
  environ (snd (RunConfigAction_do ext fuel self w)) !! "FILENAME" = Some filename.
Proof.
  intros Hneeds Hsel Hne.
  rewrite RunConfigAction_do_unfold. cbv zeta.
  rewrite !RunConfigAction_opts_flag by done.
  rewrite Hneeds, Hsel. apply String.eqb_neq in Hne. rewrite Hne.
  unfold_M. cbv beta. cbn [fst snd environ with_environ].
  set (w1 := with_environ _ _).
  assert (Hw1 : environ w1 !! "FILENAME" = Some filename).
  { subst w1. cbn [environ with_environ]. apply lookup_insert_eq. }
  clearbody w1. unfold RunConfigAction_prompts.
  destruct (_ || _).
  - unfold_M. cbv beta.
    pose proof (RunConfigAction_dialog_environ fuel (RunConfigAction_cmd ext self)
                  (RunConfigAction_opts ext self) w1) as Henv.
    destruct (RunConfigAction_dialog _ _ _ _ _) as [[outcome|e] w2];
      cbn [snd] in Henv; [|cbn; by rewrite Henv].
    destruct outcome; cbn [snd]; try by rewrite Henv.
    rewrite RunConfigAction_run_FILENAME. by rewrite Henv.
  - destruct (truthy (opts_get _ "confirm")).
    + unfold prompt_question, as_str. unfold_M. cbv beta.
      destruct (opts_get _ "title"); try exact Hw1.
      destruct (opts_get _ "prompt"); try exact Hw1.
      cbn [fst snd trace with_trace environ].
      destruct (answer_question _ _ _ _); cbn [negb snd]; [|exact Hw1].
      rewrite RunConfigAction_run_FILENAME. exact Hw1.
    + rewrite RunConfigAction_run_FILENAME. exact Hw1.
Qed.

End MoreProperties.

(** ** Properties of the commands on branches, diffs and files *)

Ltac unfold_HostM :=
  unfold mbind, mret in *;
  unfold HostM_bind, HostM_ret, host_try_except, act, past, os_path_exists,
    host_slurp, utils_write, os_remove in *.

Section HostProperties.

Context (ext : Ext) (host : Host).

(** A lifted program that leaves the trace alone adds no action. *)
Lemma lift_silent {A : Type} (prog : M A) (s : Sys) (r : result A) (w' : World) :
  prog (world s) = (r, w') →
  trace w' = trace (world s) →
  lift prog s = (r, {| world := w'; files := files s; actions := actions s |}).
Proof.
  intros Hrun Htrace. unfold lift, effects_of. rewrite Hrun. cbn [snd].
  rewrite Htrace, drop_all. cbn. by rewrite app_nil_r.
Qed.

Lemma lift_broadcast (sig : Signal) (s : Sys) :
  lift (broadcast sig) s
    = (Ok tt, {| world := with_trace (trace (world s) ++ [Broadcast sig]) (world s);
                 files := files s;
                 actions := actions s ++ [Did (Broadcast sig)] |}).
Proof.
  unfold lift, effects_of, broadcast, emit. cbn. by rewrite drop_app_length.
Qed.

Lemma lift_rescan (c : ModelCall) (s : Sys) :
  lift (rescan_after ext c) s
    = (Ok tt,
       {| world :=
            with_model
              (Model.set_status (status_scan ext (trace (world s) ++ [Call c]))
                 (model (world s)))
              (with_trace (trace (world s) ++ [Call c]) (world s));
          files := files s;
          actions := actions s ++ [Did (Call c)] |}).
Proof.
  unfold lift, effects_of, rescan_after. run. by rewrite drop_app_length.
Qed.


(** X19: [CheckoutBranch] never asks for the rescan of the whole status: its
    constructor drops the [checkout_branch] argument, so [do] rescans the
    file status only. *)
Theorem CheckoutBranch_rescans_file_status
    (branch : string) (checkout_branch : bool) (s : Sys) :
  let '(status, output) := run_checkout host (actions s) [branch] in
  ∃ self s',
    CheckoutBranch_init branch checkout_branch (world s) = (Ok self, world s) ∧
    Checkout_do ext host self s = (Ok tt, s') ∧
    actions s' = actions s ++
      [GitCheckout [branch];
       Did (Broadcast (log_cmd status output));
       Did (Call update_file_status)].
Proof.
  assert (Hinit : ∃ self,
            CheckoutBranch_init branch checkout_branch (world s) = (Ok self, world s) ∧
            co_argv self = [branch] ∧ co_checkout_branch self = false)
    by (eexists; repeat split).
  destruct Hinit as (self & Hinit & Hargv & Hflag).
  destruct (run_checkout host (actions s) [branch]) as [status output] eqn:Hrun.
  exists self. eexists. split; [exact Hinit|].
  unfold Checkout_do, model_update_file_status.
  unfold_HostM. cbn [actions world files]. rewrite Hargv, Hflag, Hrun.
  rewrite lift_broadcast, lift_rescan. cbn.
  split; [reflexivity|]. cbn. by rewrite <- !app_assoc.
Qed.

(** X20: [DeleteBranch.do] broadcasts the outcome of the deletion: an output that
    starts with [error:] is shown with a capital E and no title, any other
    output behind the title [Info: ]. *)
Theorem DeleteBranch_do_titles_output (branch : string) (s : Sys) :
  let '(status, output) := run_delete_branch host (actions s) branch in
  ∃ s' msg,
    DeleteBranch_do host branch s = (Ok tt, s') ∧
    actions s' = actions s ++
      [DeleteBranchCall branch; Did (Broadcast (log_cmd status msg))] ∧
    if String.prefix "error:" output
    then ∃ rest, output = "error:" +:+ rest ∧ msg = "Error:" +:+ rest
    else msg = "Info: " +:+ output.
Proof.
  unfold DeleteBranch_do. unfold_HostM. cbn [actions world files].
  destruct (run_delete_branch host (actions s) branch) as [status output].
  destruct (String.prefix "error:" output) eqn:Hprefix;
    rewrite lift_broadcast; cbn;
    (do 2 eexists; split; [reflexivity|]); cbn; rewrite <- !app_assoc;
    (split; [reflexivity|]).
  - apply prefix_split in Hprefix as [rest ->]. exists rest. split; reflexivity.
  - reflexivity.
Qed.

Lemma lift_Command_init (s : Sys) :
  ∃ self,
    lift Command_init s = (Ok self, s) ∧
    undoable self = false ∧
    new_diff_text self = Model.diff_text (model (world s)) ∧
    new_filename self = Model.filename (model (world s)) ∧
    new_head self = Model.head (model (world s)) ∧
    new_mode self = Model.mode (model (world s)).
Proof.
  eexists. split.
  - erewrite lift_silent; [|reflexivity|reflexivity]. by destruct s.
  - repeat split.
Qed.

Lemma lift_get_model (s : Sys) : lift get_model s = (Ok (model (world s)), s).
Proof. erewrite lift_silent; [|reflexivity|reflexivity]. by destruct s. Qed.

Lemma lift_Command_do (self : Command) (s : Sys) :
  ∃ w',
    lift (Command_do self) s
      = (Ok tt, {| world := w'; files := files s; actions := actions s |}) ∧
    trace w' = trace (world s) ∧
    Model.filename (model w') = new_filename self ∧
    Model.head (model w') = new_head self ∧
    Model.mode (model w') = new_mode self ∧
    Model.diff_text (model w') = new_diff_text self ∧
    Model.commitmsg (model w') = Model.commitmsg (model (world s)).
Proof.
  eexists. split.
  - apply lift_silent; [unfold Command_do; run; reflexivity | reflexivity].
  - repeat split.
Qed.

(** X21: On an empty list [Diff] asks git for nothing and builds a command whose
    [do] puts back the four fields as they are; [DiffStaged] on an empty
    list builds one that switches the mode to index and keeps the rest. *)
Theorem Diff_on_empty_list (cached : bool) (s : Sys) :
  (∃ self w',
     Diff_init host [] cached s = (Ok self, s) ∧
     Command_do self (world s) = (Ok tt, w') ∧
     Model.snap (model w') = Model.snap (model (world s))) ∧
  (∃ self w',
     DiffStaged_init host [] s = (Ok self, s) ∧
     Command_do self (world s) = (Ok tt, w') ∧
     Model.mode (model w') = mode_index ∧
     Model.diff_text (model w') = Model.diff_text (model (world s)) ∧
     Model.filename (model w') = Model.filename (model (world s)) ∧
     Model.head (model w') = Model.head (model (world s))).
Proof.
  destruct (lift_Command_init s) as (self & Hinit & _ & Hd & Hf & Hh & Hm).
  split.
  - exists self. eexists. unfold Diff_init. unfold_HostM. rewrite Hinit.
    split; [reflexivity|]. unfold Command_do. run. split; [reflexivity|].
    unfold Model.snap. cbn. by rewrite Hd, Hf, Hh, Hm.
  - exists (with_new_mode mode_index self). eexists.
    unfold DiffStaged_init, Diff_init. unfold_HostM. rewrite Hinit.
    split; [reflexivity|]. unfold Command_do. run. split; [reflexivity|].
    cbn. by rewrite Hd, Hf, Hh.
Qed.

(** X22: On a list that is not empty [Diff] asks for the diff of the first file
    only, against the model's head when [cached] and without a ref
    otherwise; its [do] then shows that file and text in worktree mode and
    keeps the head. *)
Theorem Diff_shows_first_file
    (first : option string) (others : list (option string)) (cached : bool) (s : Sys) :
  let ref := if cached then Some (Model.head (model (world s))) else None in
  ∃ self s1 s2,
    Diff_init host (first :: others) cached s = (Ok self, s1) ∧
    actions s1 = actions s ++ [DiffHelper first cached ref] ∧
    lift (Command_do self) s1 = (Ok tt, s2) ∧
    actions s2 = actions s1 ∧
    Model.filename (model (world s2)) = first ∧
    Model.mode (model (world s2)) = mode_worktree ∧
    Model.diff_text (model (world s2))
      = run_diff_helper host (actions s) first cached ref ∧
    Model.head (model (world s2)) = Model.head (model (world s)).
Proof.
  cbv zeta.
  destruct (lift_Command_init s) as (self & Hinit & _ & Hd & Hf & Hh & Hm).
  unfold Diff_init, gitcmds_diff_helper. unfold_HostM.
  rewrite Hinit, lift_get_model. cbn [actions world files].
  eexists. eexists.
  edestruct lift_Command_do as (w' & Hdo & _ & Hf' & Hh' & Hm' & Hd' & _).
  eexists. split; [reflexivity|]. cbn [actions].
  split; [reflexivity|]. split; [exact Hdo|]. cbn [actions world].
  rewrite Hf', Hh', Hm', Hd'. cbn. rewrite Hh. repeat split.
Qed.

(** X23: [ApplyDiffSelection.do] logs the outcome of applying the selection and,
    whatever the status, refreshes the diff of the current file (in index
    mode against the head when staged, in worktree mode otherwise) and
    rescans the file status. *)
Theorem ApplyDiffSelection_do_refreshes (self : ApplyDiffSelection) (s : Sys) :
  let current := Model.filename (model (world s)) in
  let ref := if ads_staged self then Some (Model.head (model (world s))) else None in
  let '(status, output) :=
    run_process_diff_selection host (actions s) current (ads_staged self)
      (ads_apply_to_worktree self) (ads_selected self) (ads_offset self)
      (ads_selection self) (ads_apply_to_worktree self) in
  ∃ s' text,
    ApplyDiffSelection_do ext host self s = (Ok tt, s') ∧
    actions s' = actions s ++
      [ProcessDiffSelection current (ads_staged self) (ads_apply_to_worktree self)
         (ads_selected self) (ads_offset self) (ads_selection self)
         (ads_apply_to_worktree self);
       Did (Broadcast (log_cmd status output));
       DiffHelper current (ads_staged self) ref;
       Did (Call update_file_status)] ∧
    Model.mode (model (world s'))
      = (if ads_staged self then mode_index else mode_worktree) ∧
    Model.diff_text (model (world s')) = text ∧
    text = run_diff_helper host
             (actions s ++
                [ProcessDiffSelection current (ads_staged self)
                   (ads_apply_to_worktree self) (ads_selected self)
                   (ads_offset self) (ads_selection self)
                   (ads_apply_to_worktree self);
                 Did (Broadcast (log_cmd status output))])
             current (ads_staged self) ref ∧
    Model.filename (model (world s')) = current ∧
    Model.head (model (world s')) = Model.head (model (world s)).
Proof.
  cbv zeta.
  unfold ApplyDiffSelection_do, DiffStaged_init, Diff_init, gitcmds_diff_helper,
    model_update_file_status.
  unfold_HostM. rewrite lift_get_model. cbn [actions world files].
  destruct (run_process_diff_selection _ _ _ _ _ _ _ _ _) as [status output].
  rewrite lift_broadcast, lift_get_model. cbn [actions world files model with_trace].
  destruct (ads_staged self);
    edestruct lift_Command_init as (base & Hinit & _ & Hd & Hf & Hh & Hm);
    rewrite Hinit, lift_get_model; cbn [actions world files model with_trace];
    edestruct lift_Command_do as (w' & Hdo & Ht & Hf' & Hh' & Hm' & Hd' & _);
    rewrite Hdo, lift_rescan; cbn [actions world files model with_trace];
    (do 2 eexists; split; [reflexivity|]); cbn;
    rewrite Hf', Hh', Hm', Hd'; cbn in *; rewrite Hh;
    rewrite <- !app_assoc; repeat split.
Qed.


Lemma Ignore_additions_fold (filenames : list string) (acc : string) :
  fold_left (λ acc fname, acc +:+ fname +:+ Str.nl) filenames acc
    = acc +:+ ignore_lines filenames.
Proof.
  unfold ignore_lines. revert acc.
  induction filenames as [|f rest IH]; intros acc.
  - cbn. by rewrite string_app_empty_r.
  - cbn [fold_left map]. rewrite IH, concat_empty_cons.
    by rewrite !string_app_assoc.
Qed.

Lemma string_app_not_empty (s t : string) : t ≠ "" → s +:+ t ≠ "".
Proof. intros Ht. destruct s; [exact Ht | discriminate]. Qed.

Lemma ignore_lines_not_empty (f : string) (rest : list string) :
  String.eqb (ignore_lines (f :: rest)) "" = false.
Proof.
  apply String.eqb_neq. unfold ignore_lines. cbn [map].
  rewrite concat_empty_cons, string_app_assoc.
  apply string_app_not_empty. discriminate.
Qed.

(** X25: [Ignore.do] does nothing for an empty list.  Otherwise it writes the
    names, one per line, in front of what [.gitignore] held (creating the
    file when there was none), keeps every other file, broadcasts the added
    lines and rescans the file status. *)
Theorem Ignore_do_prepends (self : FilesCommand) (s : Sys) :
  match fc_filenames self with
  | [] => Ignore_do ext self s = (Ok tt, s)
  | _ =>
      ∃ s',
        Ignore_do ext self s = (Ok tt, s') ∧
        files s' = <[".gitignore" :=
                      ignore_lines (fc_filenames self)
                        +:+ default "" (files s !! ".gitignore")]> (files s) ∧
        actions s' = actions s ++
          [Did (Broadcast (log_cmd 0 ("Added to .gitignore:" +:+ Str.nl
                                      +:+ ignore_lines (fc_filenames self))));
           Did (Call update_file_status)]
  end.
Proof.
  unfold Ignore_do, model_update_file_status. cbv zeta.
  rewrite Ignore_additions_fold. change ("" +:+ ?x) with x.
  destruct (fc_filenames self) as [|f rest]; [reflexivity|].
  rewrite ignore_lines_not_empty. cbn [negb].
  unfold_HostM. cbn [actions world files].
  destruct (files s !! ".gitignore") as [current|] eqn:Hcur.
  - rewrite bool_decide_true by eauto. rewrite Hcur. cbn [actions world files].
    rewrite lift_broadcast, lift_rescan. cbn [actions world files default].
    eexists. split; [reflexivity|]. cbn [actions world files].
    rewrite <- app_assoc. split; reflexivity.
  - rewrite bool_decide_false by (intros [? ?]; discriminate).
    cbn [actions world files].
    rewrite lift_broadcast, lift_rescan. cbn [actions world files default].
    eexists. split; [reflexivity|]. cbn [actions world files].
    rewrite <- app_assoc, string_app_empty_r. split; reflexivity.
Qed.



End HostProperties.

(** ** The further properties on the sample sessions *)

Lemma AmendMode_enters_amend_mode_witness :
  path_exists (sample_ext true false)
    (git_path (sample_ext true false) "MERGE_HEAD") = false ∧
  ∃ self self' w',
    AmendMode_init (sample_ext true false) true sample_world = (Ok self, sample_world) ∧
    AmendMode_do (sample_ext true false) self sample_world = (Ok self', w') ∧
    am_skip self' = false ∧
    Model.mode (model w') = mode_amend ∧
    Model.head (model w') = "HEAD^" ∧
    Model.commitmsg (model w') = prev_commitmsg (sample_ext true false) None ∧
    Model.diff_text (model w') = Model.diff_text (model sample_world) ∧
    Model.filename (model w') = Model.filename (model sample_world) ∧
    Model.directory (model w') = Model.directory (model sample_world) ∧
    effects_of (AmendMode_do (sample_ext true false) self) sample_world
      = [Broadcast (amend true); Call update_file_status].
Proof.
  split; [reflexivity|].
  apply (AmendMode_enters_amend_mode (sample_ext true false) sample_world).
  reflexivity.
Defined.

Lemma AmendMode_leave_restores_entry_message_witness :
  am_amending sample_amend = true ∧
  undostack sample_world_amending
    = [] ++ ObjAmendMode sample_amend :: [ObjSetDiffText sample_command] ∧
  Forall (λ o, is_amend_entering o = false) [ObjSetDiffText sample_command] ∧
  ∃ self self' w',
    AmendMode_init (sample_ext true false) false sample_world_amending
      = (Ok self, sample_world_amending) ∧
    AmendMode_do (sample_ext true false) self sample_world_amending = (Ok self', w') ∧
    Model.commitmsg (model w') = am_old_commitmsg sample_amend ∧
    Model.mode (model w') = mode_none ∧
    Model.head (model w') = "HEAD" ∧
    Model.diff_text (model w') = "" ∧
    Model.filename (model w') = Model.filename (model sample_world_amending).
Proof.
  split; [reflexivity|]. split; [reflexivity|].
  split; [repeat constructor|].
  apply (AmendMode_leave_restores_entry_message (sample_ext true false)
           sample_amend [] [ObjSetDiffText sample_command] sample_world_amending);
    [reflexivity | reflexivity | repeat constructor].
Defined.

Lemma LoadCommitMessage_do_missing_file_witness :
  (∃ path, lcm_path
             {| lcm_base := sample_command; lcm_path := Some "/nowhere";
                lcm_old_commitmsg := ""; lcm_old_directory := "" |} = Some path ∧
           path_isfile (sample_ext true false) path = false) ∧
  LoadCommitMessage_do (sample_ext true false)
    {| lcm_base := sample_command; lcm_path := Some "/nowhere";
       lcm_old_commitmsg := ""; lcm_old_directory := "" |} sample_world
    = (Raise (cannot_find_template (Some "/nowhere")), sample_world).
Proof.
  split; [exists "/nowhere"; split; reflexivity|].
  apply (LoadCommitMessage_do_missing_file (sample_ext true false)
           {| lcm_base := sample_command; lcm_path := Some "/nowhere";
              lcm_old_commitmsg := ""; lcm_old_directory := "" |} sample_world).
  intros path Hpath. injection Hpath as <-. right. reflexivity.
Defined.

Lemma LoadCommitMessage_do_loads_witness :
  lcm_path sample_template = Some "/repo/template.txt" ∧
  path_isfile (sample_ext true false) "/repo/template.txt" = true ∧
  slurp (sample_ext true false) "/repo/template.txt" = Some "Subject" ∧
  ∃ w',
    LoadCommitMessage_do (sample_ext true false) sample_template sample_world
      = (Ok tt, w') ∧
    Model.directory (model w') = dirname (sample_ext true false) "/repo/template.txt" ∧
    Model.commitmsg (model w') = "Subject" ∧
    Model.diff_text (model w') = Model.diff_text (model sample_world) ∧
    Model.filename (model w') = Model.filename (model sample_world) ∧
    Model.mode (model w') = Model.mode (model sample_world) ∧
    Model.head (model w') = Model.head (model sample_world) ∧
    trace w' = trace sample_world.
Proof.
  split; [reflexivity|]. split; [reflexivity|]. split; [reflexivity|].
  apply (LoadCommitMessage_do_loads (sample_ext true false) sample_template
           "/repo/template.txt" "Subject" sample_world);
    [reflexivity | discriminate | reflexivity | reflexivity].
Defined.

Lemma LoadCommitMessage_do_unreadable_witness :
  lcm_path sample_template = Some "/repo/template.txt" ∧
  path_isfile (tool_ext ∅ None true true false) "/repo/template.txt" = true ∧
  slurp (tool_ext ∅ None true true false) "/repo/template.txt" = None ∧
  ∃ w',
    LoadCommitMessage_do (tool_ext ∅ None true true false) sample_template sample_world
      = (Raise (IOError "/repo/template.txt"), w') ∧
    Model.directory (model w')
      = dirname (tool_ext ∅ None true true false) "/repo/template.txt" ∧
    Model.commitmsg (model w') = Model.commitmsg (model sample_world).
Proof.
  split; [reflexivity|]. split; [reflexivity|]. split; [reflexivity|].
  apply (LoadCommitMessage_do_unreadable (tool_ext ∅ None true true false)
           sample_template "/repo/template.txt" sample_world);
    [reflexivity | discriminate | reflexivity | reflexivity].
Defined.

Lemma LoadCommitTemplate_unconfigured_witness :
  config_get (sample_ext true false) "commit.template" = None ∧
  ∃ self title msg,
    LoadCommitTemplate_init (sample_ext true false) sample_world
      = (Ok self, sample_world) ∧
    LoadCommitTemplate_do (sample_ext true false) self sample_world
      = (Raise (UsageError title msg), sample_world) ∧
    title = "Error: unconfigured commit template".
Proof.
  split; [reflexivity|].
  apply (LoadCommitTemplate_unconfigured (sample_ext true false) sample_world).
  reflexivity.
Defined.


Lemma RunConfigAction_dialog_accepts_revision_witness :
  ∃ w',
    RunConfigAction_dialog (sample_ext true false) 1 (VStr "git show $REVISION")
      sample_dialog_opts sample_world
      = (Ok (Accepted sample_dialog_opts (VStr "HEAD~1") VNone), w') ∧
    VStr "HEAD~1" = opts_get sample_dialog_opts "revision" ∧
    VNone = opts_get sample_dialog_opts "args" ∧
    (truthy (opts_get sample_dialog_opts "revprompt") = true →
     truthy (VStr "HEAD~1") = true).
Proof.
  assert (Hrun : { w' | RunConfigAction_dialog (sample_ext true false) 1
                          (VStr "git show $REVISION") sample_dialog_opts sample_world
                        = (Ok (Accepted sample_dialog_opts (VStr "HEAD~1") VNone), w') }).
  { eexists. vm_compute. reflexivity. }
  destruct Hrun as [w' Hrun]. exists w'. split; [exact Hrun|].
  exact (RunConfigAction_dialog_accepts_revision (sample_ext true false) 1
           (VStr "git show $REVISION") sample_dialog_opts sample_dialog_opts
           (VStr "HEAD~1") VNone sample_world w' Hrun).
Defined.

Lemma RunConfigAction_dialog_cancelled_witness :
  truthy (opts_get (get_guitool_opts (tool_ext sample_dialog_opts None false true true)
                      (rca_name sample_tool)) "needsfile") = false ∧
  ∃ w',
    RunConfigAction_do (tool_ext sample_dialog_opts None false true true) 1
      sample_tool sample_world = (Ok (Returned None), w') ∧
    existsb runs_shell
      (effects_of
         (RunConfigAction_do (tool_ext sample_dialog_opts None false true true) 1
            sample_tool) sample_world) = false ∧
    model w' = model sample_world ∧
    environ w' = cleared (environ sample_world).
Proof.
  split; [reflexivity|].
  apply (RunConfigAction_dialog_cancelled
           (tool_ext sample_dialog_opts None false true true) 0 sample_tool
           sample_world); reflexivity.
Defined.

Lemma RunConfigAction_confirmation_declined_witness :
  truthy (opts_get (get_guitool_opts (tool_ext sample_confirm_opts None true false true)
                      (rca_name sample_tool)) "confirm") = true ∧
  ∃ w',
    RunConfigAction_do (tool_ext sample_confirm_opts None true false true) 0
      sample_tool sample_world = (Ok (Returned None), w') ∧
    effects_of
      (RunConfigAction_do (tool_ext sample_confirm_opts None true false true) 0
         sample_tool) sample_world
      = [PromptUser (question "git gc" "Are you sure you want to run git gc?")] ∧
    model w' = model sample_world ∧
    environ w' = cleared (environ sample_world).
Proof.
  split; [reflexivity|].
  apply (RunConfigAction_confirmation_declined
           (tool_ext sample_confirm_opts None true false true) 0 sample_tool
           "git gc" "Are you sure you want to run git gc?" sample_world);
    reflexivity.
Defined.

Lemma RunConfigAction_runs_plain_tool_witness :
  RunConfigAction_cmd (tool_ext sample_plain_opts None true true true) sample_tool
    = VStr "git gc" ∧
  ∃ w',
    RunConfigAction_do (tool_ext sample_plain_opts None true true true) 0
      sample_tool sample_world = (Ok (Returned (Some 0%Z)), w') ∧
    effects_of
      (RunConfigAction_do (tool_ext sample_plain_opts None true true true) 0
         sample_tool) sample_world
      = [Broadcast (log_cmd 0 "running: git gc");
         Shell ["sh"; "-c"; "git gc"];
         Broadcast (log_cmd 0 ("stdout: " +:+ Str.nl +:+ "status: 0" +:+ Str.nl
                               +:+ "stderr: "));
         Call update_status] ∧
    environ w' = cleared (environ sample_world).
Proof.
  split; [reflexivity|].
  apply (RunConfigAction_runs_plain_tool
           (tool_ext sample_plain_opts None true true true) 0 sample_tool
           "git gc" sample_world); reflexivity.
Defined.

Lemma RunConfigAction_exports_selected_file_witness :
  selection_filename (tool_ext sample_tool_opts (Some "x.py") true true true)
    = Some "x.py" ∧
  environ (snd (RunConfigAction_do
                  (tool_ext sample_tool_opts (Some "x.py") true true true) 0
                  sample_tool sample_world)) !! "FILENAME" = Some "x.py".
Proof.
  split; [reflexivity|].
  apply (RunConfigAction_exports_selected_file
           (tool_ext sample_tool_opts (Some "x.py") true true true) 0 sample_tool
           "x.py" sample_world); [reflexivity | reflexivity | discriminate].
Defined.
